(** * M:OTION Python backend (pyserver.py): tracker, wire framing, pose and payload

    A shallow embedding of [pyserver/pyserver.py].  Python [int]s are [Z];
    [bytes] are lists of [byte]; a raised exception is the left injection of
    a sum.  Where the code branches on a float or turns it into an [int]
    (the frame rate, the test of the singular matrix, the clock in
    milliseconds) the float is a binary64 [float] with the arithmetic of
    Python; the scores, the expression fields and the angles, which go
    through [math.atan2] and [math.degrees], are real numbers ([R]: the
    rounding of those is outside the model). *)

From Stdlib Require Import ZArith NArith List String Bool Reals Lra Lia.
From Stdlib Require Import Strings.Byte DecimalString.
From Stdlib Require Floats.PrimFloat Floats.FloatOps Floats.SpecFloat.
Import ListNotations.

Set Implicit Arguments.
Set Warnings "-register-all,-inexact-float".

(** ** Python exceptions and the error monad *)

Module Py.

(** The exception classes that the handlers of [ws_track] tell apart, and the
    ones the modelled code raises itself. *)
Inductive exc_class : Type :=
| WebSocketDisconnect
| RuntimeError
| RecursionError          (* subclass of RuntimeError *)
| NotImplementedError     (* subclass of RuntimeError *)
| ValueError
| UnicodeDecodeError      (* subclass of ValueError *)
| JSONDecodeError         (* subclass of ValueError *)
| TypeError
| AttributeError
| IndexError
| KeyError
| OverflowError
| Cv2Error                (* cv2.error, subclass of Exception *)
| OSError                 (* PIL's UnidentifiedImageError is one *)
| CancelledError          (* BaseException only *)
| KeyboardInterrupt.      (* BaseException only *)

(** [issubclass(c, RuntimeError)] *)
Definition is_RuntimeError (c : exc_class) : bool :=
  match c with
  | RuntimeError | RecursionError | NotImplementedError => true
  | _ => false
  end.

(** [issubclass(c, Exception)] *)
Definition is_Exception (c : exc_class) : bool :=
  match c with
  | CancelledError | KeyboardInterrupt => false
  | _ => true
  end.

(** An exception instance: its class and [str(exc)]. *)
Record exn : Type := Exn { exn_class : exc_class; exn_str : string }.

(** A computation that returns a value or raises. *)
Definition M (A : Type) : Type := (exn + A)%type.

Definition ret {A} (a : A) : M A := inr a.
Definition raise {A} (e : exn) : M A := inl e.
Definition bind {A B} (m : M A) (k : A -> M B) : M B :=
  match m with
  | inl e => inl e
  | inr a => k a
  end.

End Py.

Declare Scope py_scope.
Delimit Scope py_scope with py.
Notation "x <- m ;; k" := (Py.bind m (fun x => k))
  (at level 61, m at next level, right associativity) : py_scope.

(** ** Python floats *)

Module Float64.

(** [float(n)] of an [int], rounded to the nearest binary64 (the timestamps
    the history holds fit 64 bits, so the conversion does not overflow). *)
Definition of_int (n : Z) : PrimFloat.float :=
  FloatOps.SF2Prim (SpecFloat.binary_normalize FloatOps.prec FloatOps.emax n 0 false).

(** The real number that a binary64 number is; an infinity or a NaN, which
    the numbers converted here are not, is sent to 0. *)
Definition to_R (f : PrimFloat.float) : R :=
  match FloatOps.Prim2SF f with
  | SpecFloat.S754_finite s m e =>
      (IZR (if s then Z.neg m else Z.pos m) * powerRZ 2 e)%R
  | _ => 0%R
  end.

(** A binary64 number that is finite. *)
Record finite : Type := Finite {
  value : PrimFloat.float;
  value_finite : PrimFloat.is_finite value = true
}.

Definition zero : finite := Finite PrimFloat.zero eq_refl.
Definition one : finite := Finite PrimFloat.one eq_refl.
Definition minus_one : finite := Finite (PrimFloat.opp PrimFloat.one) eq_refl.

End Float64.

(** ** Detection result (mediapipe's FaceLandmarkerResult) *)

Module Detection.

Record NormalizedLandmark : Type :=
  Landmark { x : R; y : R; z : R }.

Record Category : Type :=
  mkCategory { category_name : string; score : R }.

(** A transformation matrix as the sequence of its entries, row by row;
    the entries are finite binary64 numbers. *)
Definition matrix : Type := list Float64.finite.

Record FaceLandmarkerResult : Type := mkResult {
  face_landmarks : list (list NormalizedLandmark);
  face_blendshapes : list (list Category);
  facial_transformation_matrixes : list matrix
}.

End Detection.

(** ** Wire framing: the length prefix, the slices and the UTF-8 decoding *)

Module Wire.

(** [int.from_bytes(b, "little")] *)
Fixpoint from_bytes_little (b : list byte) : N :=
  match b with
  | [] => 0
  | b0 :: rest => Byte.to_N b0 + 256 * from_bytes_little rest
  end.

(** [raw[lo:hi]] for indices that are not negative: both are cut to the
    length of the buffer, so a slice never raises. *)
Definition slice {A} (raw : list A) (lo hi : N) : list A :=
  let n := N.of_nat (List.length raw) in
  let lo' := N.min lo n in
  let hi' := N.min hi n in
  firstn (N.to_nat (hi' - lo')) (skipn (N.to_nat lo') raw).

(** [raw[lo:]] *)
Definition slice_from {A} (raw : list A) (lo : N) : list A :=
  skipn (N.to_nat (N.min lo (N.of_nat (List.length raw)))) raw.

Definition continuation (b : byte) : bool :=
  ((128 <=? Byte.to_N b) && (Byte.to_N b <=? 191))%N.

Definition between (lo hi : N) (b : byte) : bool :=
  ((lo <=? Byte.to_N b) && (Byte.to_N b <=? hi))%N.

(** Strict UTF-8, as [bytes.decode("utf-8")] accepts it: no overlong forms,
    no surrogates, nothing above U+10FFFF. *)
Fixpoint utf8_valid (b : list byte) : bool :=
  match b with
  | [] => true
  | b0 :: rest =>
    if (Byte.to_N b0 <=? 127)%N then utf8_valid rest
    else if between 194 223 b0 then
      match rest with
      | b1 :: rest' => continuation b1 && utf8_valid rest'
      | _ => false
      end
    else if between 224 239 b0 then
      match rest with
      | b1 :: b2 :: rest' =>
          (if (Byte.to_N b0 =? 224)%N then between 160 191 b1
           else if (Byte.to_N b0 =? 237)%N then between 128 159 b1
           else continuation b1)
          && continuation b2 && utf8_valid rest'
      | _ => false
      end
    else if between 240 244 b0 then
      match rest with
      | b1 :: b2 :: b3 :: rest' =>
          (if (Byte.to_N b0 =? 240)%N then between 144 191 b1
           else if (Byte.to_N b0 =? 244)%N then between 128 143 b1
           else continuation b1)
          && continuation b2 && continuation b3 && utf8_valid rest'
      | _ => false
      end
    else false
  end.

(** [b.decode("utf-8")]; a [str] is kept as its UTF-8 encoding.  The text of
    the exception is shortened (Python adds the byte and its position). *)
Definition decode_error : Py.exn :=
  Py.Exn Py.UnicodeDecodeError "'utf-8' codec can't decode bytes".

Definition decode_utf8 (b : list byte) : Py.M string :=
  if utf8_valid b then Py.ret (string_of_list_byte b)
  else Py.raise decode_error.

End Wire.

(** ** What [json.loads] returns, and the header accesses *)

Module Json.

Inductive value : Type :=
| JNone
| JBool (b : bool)
| JInt (n : Z)
| JFloat (x : R)
| JStr (s : string)
| JList (l : list value)
| JDict (d : list (string * value)).

Definition type_name (v : value) : string :=
  match v with
  | JNone => "NoneType"
  | JBool _ => "bool"
  | JInt _ => "int"
  | JFloat _ => "float"
  | JStr _ => "str"
  | JList _ => "list"
  | JDict _ => "dict"
  end.

Fixpoint lookup (key : string) (d : list (string * value)) : option value :=
  match d with
  | [] => None
  | (k, v) :: d' => if String.eqb k key then Some v else lookup key d'
  end.

(** [header.get(key, default)]: only a dict has [get]. *)
Definition get (header : value) (key : string) (default : value) : Py.M value :=
  match header with
  | JDict d =>
      Py.ret (match lookup key d with Some v => v | None => default end)
  | _ =>
      Py.raise (Py.Exn Py.AttributeError
        ("'" ++ type_name header ++ "' object has no attribute 'get'"))
  end.

(** [header[key]] on a dict. *)
Definition getitem (header : value) (key : string) : Py.M value :=
  match header with
  | JDict d =>
      match lookup key d with
      | Some v => Py.ret v
      | None => Py.raise (Py.Exn Py.KeyError ("'" ++ key ++ "'"))
      end
  | _ =>
      Py.raise (Py.Exn Py.TypeError
        ("'" ++ type_name header ++ "' object is not subscriptable"))
  end.

(** [int(x)] of a float: towards zero. *)
Definition trunc (x : R) : Z :=
  if Rle_dec 0 x then Int_part x else (- Int_part (- x))%Z.

(** [bool(v)] *)
Definition truthy (v : value) : bool :=
  match v with
  | JNone => false
  | JBool b => b
  | JInt n => negb (n =? 0)%Z
  | JFloat x => if Req_dec_T x 0 then false else true
  | JStr s => negb (String.eqb s "")
  | JList l => match l with [] => false | _ => true end
  | JDict d => match d with [] => false | _ => true end
  end.

(** [int(v)]; [int_of_str] is [int] on a [str]. *)
Definition int (int_of_str : string -> Py.M Z) (v : value) : Py.M Z :=
  match v with
  | JInt n => Py.ret n
  | JBool b => Py.ret (if b then 1 else 0)%Z
  | JFloat x => Py.ret (trunc x)
  | JStr s => int_of_str s
  | _ =>
      Py.raise (Py.Exn Py.TypeError
        ("int() argument must be a string, a bytes-like object or a real number, not '"
         ++ type_name v ++ "'"))
  end.

End Json.

(** ** The libraries the server calls *)

Module Ext.

(** A decoded frame: rows of pixels, three channels each. *)
Definition ndarray : Type := list (list (byte * byte * byte)).

(** The library calls whose results the server only passes on. *)
Record externals : Type := mkExternals {
  (** [json.loads(text)] *)
  json_loads : string -> Py.M Json.value;
  (** [int(s)] for a [str] *)
  int_of_str : string -> Py.M Z;
  (** [cv2.imdecode(np.frombuffer(b, dtype=np.uint8), cv2.IMREAD_COLOR)] *)
  imdecode : list byte -> Py.M (option ndarray);
  (** [cv2.cvtColor(img, cv2.COLOR_BGR2RGB)] *)
  cvtColor : ndarray -> ndarray;
  (** [np.array(Image.open(io.BytesIO(b)).convert("RGB"))] *)
  pil_open_rgb : list byte -> Py.M ndarray
}.

End Ext.

(** ** Pose: the angles from the matrix, or from three landmarks *)

Module Pose.
Import Detection.
Import PrimFloat.
Local Open Scope R_scope.

(** [math.atan2(y, x)] *)
Definition atan2 (y x : R) : R :=
  if Rlt_dec 0 x then atan (y / x)
  else if Rlt_dec x 0 then
    (if Rle_dec 0 y then atan (y / x) + PI else atan (y / x) - PI)
  else if Rlt_dec 0 y then PI / 2
  else if Rlt_dec y 0 then - (PI / 2)
  else 0.

(** [math.degrees(x)] *)
Definition degrees (x : R) : R := x * (180 / PI).

(** [np.array(matrix).reshape((4, 4))]: the entries, when there are 16. *)
Definition reshape_4x4 (matrix : list Float64.finite) : Py.M (list Float64.finite) :=
  if (List.length matrix =? 16)%nat then Py.ret matrix
  else Py.raise (Py.Exn Py.ValueError
         ("cannot reshape array of size "
          ++ NilZero.string_of_uint (Nat.to_uint (List.length matrix))
          ++ " into shape (4,4)")).

(** [m[i, j]] of the reshaped matrix ([r = m[:3, :3]] has the same entries). *)
Definition entry (m : list Float64.finite) (i j : nat) : PrimFloat.float :=
  Float64.value (nth (4 * i + j) m Float64.zero).
Arguments entry m (i j)%_nat.

(** [math.atan2(y, x)] on binary64 arguments, as the real number of the
    angle; [y] is finite and [x] is finite or +infinity, as the arguments
    of the decomposition are.  For [x] = +infinity the angle is 0.  For a
    zero [y] the signs decide, as in C: 0 when [x] has the sign plus, pi
    with the sign of [y] when [x] has the sign minus, a zero [x] included.
    Otherwise it is [atan2] of the two real numbers. *)
Definition atan2_64 (y x : float) : R :=
  if (x =? infinity)%float then 0
  else if (y =? 0)%float then
    if get_sign x then (if get_sign y then - PI else PI) else 0
  else atan2 (Float64.to_R y) (Float64.to_R x).

(** [extract_pose_from_matrix(matrix)]: yaw, pitch, roll.  [sy], the test
    against 1e-6 and the negations are computed in binary64, as the code
    computes them. *)
Definition extract_pose_from_matrix (matrix : list Float64.finite) : Py.M (R * R * R) :=
  (r <- reshape_4x4 matrix ;;
   let sy :=
     PrimFloat.sqrt (entry r 0 0 * entry r 0 0 + entry r 1 0 * entry r 1 0)%float in
   let singular := (sy <? 1e-6)%float in
   if negb singular then
     let pitch := degrees (atan2_64 (entry r 2 1) (entry r 2 2)) in
     let yaw := degrees (atan2_64 (- entry r 2 0)%float sy) in
     let roll := degrees (atan2_64 (entry r 1 0) (entry r 0 0)) in
     Py.ret (yaw, pitch, roll)
   else
     let pitch := degrees (atan2_64 (- entry r 1 2)%float (entry r 1 1)) in
     let yaw := degrees (atan2_64 (- entry r 2 0)%float sy) in
     let roll := 0 in
     Py.ret (yaw, pitch, roll))%py.

(** [landmarks[i]] *)
Definition landmark_at (landmarks : list NormalizedLandmark) (i : nat)
  : Py.M NormalizedLandmark :=
  match nth_error landmarks i with
  | Some p => Py.ret p
  | None => Py.raise (Py.Exn Py.IndexError "list index out of range")
  end.

(** [estimate_pose_from_landmarks(landmarks)]: yaw, pitch, roll. *)
Definition estimate_pose_from_landmarks (landmarks : list NormalizedLandmark)
  : Py.M (R * R * R) :=
  (left_eye <- landmark_at landmarks 33 ;;
   right_eye <- landmark_at landmarks 263 ;;
   nose <- landmark_at landmarks 1 ;;
   let eye_vec :=
     (x right_eye - x left_eye, y right_eye - y left_eye, z right_eye - z left_eye) in
   let '(vx, vy, vz) := eye_vec in
   let yaw := degrees (atan2 vz vx) in
   let pitch := degrees (atan2 (z nose) vy) in
   let roll := degrees (atan2 vy vx) in
   Py.ret (yaw, pitch, roll))%py.

End Pose.

(** ** The payload and its assembly *)

Module Assembler.
Import Detection Ext.
Import PrimFloat.
Local Open Scope R_scope.

Record pose_t : Type := mkPose { yawDeg : R; pitchDeg : R; rollDeg : R }.
Record eye_t : Type := mkEye { leftOpen : R; rightOpen : R }.
Record mouth_t : Type := mkMouth { open : R; smile : R }.
Record brow_t : Type := mkBrow { leftUp : R; rightUp : R }.
Record debug_t : Type := mkDebug { serverFps : PrimFloat.float; latencyMs : Z }.

Record payload : Type := mkPayload {
  ts : Z;
  present : bool;
  pose : pose_t;
  eye : eye_t;
  mouth : mouth_t;
  brow : brow_t;
  debug : debug_t
}.

(** [max(a, b)] and [min(a, b)] of Python: the first argument, unless the
    second is strictly greater (smaller). *)
Definition py_max (a b : R) : R := if Rlt_dec a b then b else a.
Definition py_min (a b : R) : R := if Rlt_dec b a then b else a.

(** The loop of [blendshape_lookup] over [blendshapes[0]]. *)
Fixpoint first_score (entries : list Category) (name : string) : R :=
  match entries with
  | [] => 0
  | entry :: rest =>
      if String.eqb (category_name entry) name then score entry
      else first_score rest name
  end.

(** [blendshape_lookup(blendshapes, name)] *)
Definition blendshape_lookup (blendshapes : list (list Category)) (name : string) : R :=
  match blendshapes with
  | [] => 0
  | entries :: _ => first_score entries name
  end.

(** [build_empty_payload(ts_ms, present)] *)
Definition build_empty_payload (ts_ms : Z) (present : bool) : payload :=
  {| ts := ts_ms;
     present := present;
     pose := {| yawDeg := 0; pitchDeg := 0; rollDeg := 0 |};
     eye := {| leftOpen := 1; rightOpen := 1 |};
     mouth := {| open := 0; smile := 0 |};
     brow := {| leftUp := 0; rightUp := 0 |};
     debug := {| serverFps := 0%float; latencyMs := 0 |} |}.

(** A reading of [time.time()]: seconds since the epoch, a binary64 number
    whose product by 1000 is finite. *)
Record clock : Type := Clock {
  seconds : float;
  seconds_in_range : is_finite (seconds * 1000) = true
}.

(** [time.time() * 1000], [now] being [time.time()]: the product in binary64,
    as the real number it is. *)
Definition now_ms (now : clock) : R := Float64.to_R (seconds now * 1000)%float.

(** [int(header.get("ts", time.time() * 1000))], [now] being [time.time()]. *)
Definition header_ts (E : externals) (header : Json.value) (now : clock) : Py.M Z :=
  (v <- Json.get header "ts" (Json.JFloat (now_ms now)) ;;
   Json.int (int_of_str E) v)%py.

(** Lines 210-211: the latency, when the header has a truthy [ts]. *)
Definition latency (E : externals) (header : Json.value) (now : clock) : Py.M Z :=
  (v <- Json.get header "ts" Json.JNone ;;
   if Json.truthy v then
     raw <- Json.getitem header "ts" ;;
     sent_ms <- Json.int (int_of_str E) raw ;;
     Py.ret (Z.max 0 (Json.trunc (now_ms now) - sent_ms))
   else Py.ret 0%Z)%py.

(** Lines 204-207: the matrix when there is one, else the landmarks. *)
Definition pose_of (result : FaceLandmarkerResult) : Py.M (R * R * R) :=
  match facial_transformation_matrixes result with
  | matrix :: _ => Pose.extract_pose_from_matrix matrix
  | [] =>
      match face_landmarks result with
      | landmarks :: _ => Pose.estimate_pose_from_landmarks landmarks
      | [] => Py.raise (Py.Exn Py.IndexError "list index out of range")
      end
  end.

(** [build_payload(result, header, fps_server)]; [now1] and [now2] are the
    values of [time.time()] at lines 184 and 211. *)
Definition build_payload (E : externals) (result : option FaceLandmarkerResult)
    (header : Json.value) (fps_server : PrimFloat.float) (now1 now2 : clock)
  : Py.M payload :=
  (ts_ms <- header_ts E header now1 ;;
   let payload := build_empty_payload ts_ms false in
   let debug1 := {| serverFps := fps_server; latencyMs := latencyMs (debug payload) |} in
   let payload :=
     mkPayload (ts payload) (present payload) (pose payload) (eye payload)
               (mouth payload) (brow payload) debug1 in
   match result with
   | None => Py.ret payload
   | Some result =>
     if (List.length (face_landmarks result) =? 0)%nat then Py.ret payload
     else
       let blend := face_blendshapes result in
       let eye1 :=
         {| leftOpen := py_max 0 (1 - blendshape_lookup blend "eyeBlinkLeft");
            rightOpen := py_max 0 (1 - blendshape_lookup blend "eyeBlinkRight") |} in
       let smile_left := blendshape_lookup blend "mouthSmileLeft" in
       let smile_right := blendshape_lookup blend "mouthSmileRight" in
       let mouth1 :=
         {| open := py_min 1 (blendshape_lookup blend "jawOpen");
            smile := (smile_left + smile_right) * 0.5 |} in
       let brow1 :=
         {| leftUp := py_max (blendshape_lookup blend "browInnerUp")
                             (blendshape_lookup blend "browOuterUpLeft");
            rightUp := py_max (blendshape_lookup blend "browInnerUp")
                              (blendshape_lookup blend "browOuterUpRight") |} in
       angles <- pose_of result ;;
       let '(yaw, pitch, roll) := angles in
       let pose1 := {| yawDeg := yaw; pitchDeg := pitch; rollDeg := roll |} in
       ms <- latency E header now2 ;;
       Py.ret (mkPayload (ts payload) true pose1 eye1 mouth1 brow1
                         {| serverFps := fps_server; latencyMs := ms |})
   end)%py.

End Assembler.

(** ** FaceTracker: the pending future, the latest result, the fps history *)

Module FaceTracker.
Import Detection.
Import PrimFloat.

(** An [asyncio.Future]: pending, finished with a result, or cancelled. *)
Inductive future (A : Type) : Type :=
| Pending
| Finished (v : A)
| Cancelled.
Arguments Pending {A}.
Arguments Finished {A} v.
Arguments Cancelled {A}.

(** [Future.done()] *)
Definition done {A} (f : future A) : bool :=
  match f with
  | Pending => false
  | _ => true
  end.

(** The callback's pair [(result, timestamp_ms)]. *)
Definition completion : Type := (FaceLandmarkerResult * Z)%type.

Record t : Type := mk {
  _future : option (future completion);
  _latest : option FaceLandmarkerResult;
  _latest_ts : Z;
  _fps_hist : list Z
}.

(** [__init__] *)
Definition init : t :=
  {| _future := None; _latest := None; _latest_ts := 0; _fps_hist := [] |}.

(** [_on_result(self, result, _image, timestamp_ms)] *)
Definition _on_result (self : t) (result : FaceLandmarkerResult) (timestamp_ms : Z) : t :=
  let fut :=
    match _future self with
    | Some f => if negb (done f) then Some (Finished (result, timestamp_ms)) else Some f
    | None => None
    end in
  {| _future := fut;
     _latest := Some result;
     _latest_ts := timestamp_ms;
     _fps_hist := _fps_hist self |}.

(** [fps(self)] *)
Definition fps (self : t) : PrimFloat.float :=
  let h := _fps_hist self in
  if (Z.of_nat (List.length h) <? 2)%Z then 0%float
  else
    let dt := (last h 0 - hd 0 h)%Z in
    if (dt <=? 0)%Z then 0%float
    else (Float64.of_int (Z.of_nat (List.length h) - 1)
          / (Float64.of_int dt / 1000))%float.

(** Lines 142-144 of [process]: append, then drop the head when longer than 30. *)
Definition record_completion (h : list Z) (ts : Z) : list Z :=
  let h' := h ++ [ts] in
  if (30 <? Z.of_nat (List.length h'))%Z then tl h' else h'.

(** [self._future = loop.create_future()] *)
Definition create_future (self : t) : t :=
  {| _future := Some Pending;
     _latest := _latest self;
     _latest_ts := _latest_ts self;
     _fps_hist := _fps_hist self |}.

(** What [asyncio.wait_for] does to the awaited future when the 1.0 s elapse:
    it cancels it. *)
Definition cancel_future (self : t) : t :=
  {| _future := Some Cancelled;
     _latest := _latest self;
     _latest_ts := _latest_ts self;
     _fps_hist := _fps_hist self |}.

Definition with_hist (self : t) (h : list Z) : t :=
  {| _future := _future self;
     _latest := _latest self;
     _latest_ts := _latest_ts self;
     _fps_hist := h |}.

(** The callbacks the engine thread delivers, in order. *)
Definition deliver (self : t) (cbs : list completion) : t :=
  fold_left (fun s c => _on_result s (fst c) (snd c)) cbs self.

(** [process(self, frame_rgb, ts_ms)].  The frame only goes to the engine,
    whose part is given: [detect] is the exception that [mp.Image] or
    [detect_async] raises, if any; [during] are the callbacks that the engine
    delivers while [wait_for] waits, none when the 1.0 s elapse first. *)
Definition process (self : t) (frame_rgb : Ext.ndarray) (ts_ms : Z)
    (detect : option Py.exn) (during : list completion)
  : t * Py.M (option FaceLandmarkerResult) :=
  let self := create_future self in
  match detect with
  | Some e => (self, Py.raise e)
  | None =>
    let self := deliver self during in
    match _future self with
    | Some (Finished (result, ts)) =>
        (with_hist self (record_completion (_fps_hist self) ts), Py.ret (Some result))
    | _ => (cancel_future self, Py.ret None)
    end
  end.

(** One call of [process] on a connection, with the callbacks that arrive
    before it ([late]: the tracker is idle) and while it waits. *)
Record call : Type := mkCall {
  late : list completion;
  frame_rgb : Ext.ndarray;
  ts_ms : Z;
  detect : option Py.exn;
  during : list completion
}.

(** What a call returned: the request's timestamp, and the result with the
    timestamp of the completion that was recorded. *)
Record returned : Type := mkReturned {
  request_ts : Z;
  outcome : Py.M (option FaceLandmarkerResult);
  recorded : option Z
}.

Definition step (self : t) (c : call) : t * returned :=
  let idle := deliver self (late c) in
  let r := process idle (frame_rgb c) (ts_ms c) (detect c) (during c) in
  let rec :=
    match snd r, _future (fst r) with
    | inr (Some _), Some (Finished (_, ts)) => Some ts
    | _, _ => None
    end in
  (fst r, {| request_ts := ts_ms c; outcome := snd r; recorded := rec |}).

(** The calls of a connection, one after the other. *)
Fixpoint run (self : t) (cs : list call) : t * list returned :=
  match cs with
  | [] => (self, [])
  | c :: cs' =>
      let r := step self c in
      let rs := run (fst r) cs' in
      (fst rs, snd r :: snd rs)
  end.

(** The completion timestamps recorded by a run, oldest first. *)
Definition completions (rs : list returned) : list Z :=
  flat_map (fun r => match recorded r with Some ts => [ts] | None => [] end) rs.

End FaceTracker.

(** ** The connection loop *)

Module Loop.
Import Detection Ext Assembler.

(** The ["bytes"] entry of a received message: no such key, [None], or a buffer. *)
Inductive bytes_field : Type :=
| NoKey
| NoneValue
| Buffer (raw : list byte).

(** The dict that [websocket.receive()] returns. *)
Record message : Type := mkMessage {
  type : string;
  bytes : bytes_field
}.

(** What is sent with [send_text]: a payload, or [{"error": ...}]. *)
Inductive text : Type :=
| PayloadText (p : payload)
| ErrorText (error : string).

(** What one pass of the loop meets besides the message: the three readings
    of [time.time()], the engine's callbacks before and during [process], the
    exception of [detect_async], and the exceptions of the two [send_text]. *)
Record turn : Type := mkTurn {
  now_75 : Assembler.clock;
  now_184 : Assembler.clock;
  now_211 : Assembler.clock;
  late : list FaceTracker.completion;
  detect : option Py.exn;
  during : list FaceTracker.completion;
  send_fault : option Py.exn;
  error_send_fault : option Py.exn
}.

(** How a pass ends: next message, leave the loop, or an exception that no
    handler takes. *)
Inductive control : Type :=
| Continue
| Break
| Uncaught (e : Py.exn).

(** [decode_jpeg(jpeg_bytes)] *)
Definition decode_jpeg (E : externals) (jpeg_bytes : list byte) : Py.M (option ndarray) :=
  (img_bgr <- imdecode E jpeg_bytes ;;
   match img_bgr with
   | None =>
       match pil_open_rgb E jpeg_bytes with
       | inr img => Py.ret (Some img)
       | inl e => if Py.is_Exception (Py.exn_class e) then Py.ret None else Py.raise e
       end
   | Some img => Py.ret (Some (cvtColor E img))
   end)%py.

(** Lines 70-75: the header, the frame and the timestamp of a buffer. *)
Definition demultiplex (E : externals) (w : turn) (raw : list byte)
  : Py.M (Json.value * option ndarray * Z) :=
  (let header_len := Wire.from_bytes_little (Wire.slice raw 0 4) in
   header_text <- Wire.decode_utf8 (Wire.slice raw 4 (4 + header_len)) ;;
   header <- json_loads E header_text ;;
   let jpeg_bytes := Wire.slice_from raw (4 + header_len) in
   frame_rgb <- decode_jpeg E jpeg_bytes ;;
   ts_ms <- header_ts E header (now_75 w) ;;
   Py.ret (header, frame_rgb, ts_ms))%py.

(** [await websocket.send_text(json.dumps(t))] *)
Definition send_text (fault : option Py.exn) (t : text) : Py.M (list text) :=
  match fault with
  | Some e => Py.raise e
  | None => Py.ret [t]
  end.

(** Lines 65-81, the body of the [try]: the tracker afterwards, and what was
    sent and whether the loop goes on, or the exception. *)
Definition body (E : externals) (w : turn) (face_tracker : FaceTracker.t)
    (received : Py.M message) : FaceTracker.t * Py.M (list text * control) :=
  match received with
  | inl e => (face_tracker, Py.raise e)
  | inr message =>
    if String.eqb (type message) "websocket.disconnect" then
      (face_tracker, Py.ret ([], Break))
    else
      match bytes message with
      | NoKey => (face_tracker, Py.ret ([], Continue))
      | NoneValue =>
          (face_tracker,
           Py.raise (Py.Exn Py.TypeError "'NoneType' object is not subscriptable"))
      | Buffer raw =>
        match demultiplex E w raw with
        | inl e => (face_tracker, Py.raise e)
        | inr (header, None, ts_ms) =>
            (face_tracker,
             (sent <- send_text (send_fault w)
                        (PayloadText (build_empty_payload ts_ms false)) ;;
              Py.ret (sent, Continue))%py)
        | inr (header, Some frame_rgb, ts_ms) =>
            let r := FaceTracker.process face_tracker frame_rgb ts_ms (detect w) (during w) in
            (fst r,
             (result <- snd r ;;
              payload <- build_payload E result header (FaceTracker.fps (fst r))
                           (now_184 w) (now_211 w) ;;
              sent <- send_text (send_fault w) (PayloadText payload) ;;
              Py.ret (sent, Continue))%py)
        end
      end
  end.

(** Lines 82-92, the handlers. *)
Definition handle (w : turn) (exc : Py.exn) : list text * control :=
  match Py.exn_class exc with
  | Py.WebSocketDisconnect => ([], Break)
  | c =>
    if Py.is_RuntimeError c then ([], Break)
    else if Py.is_Exception c then
      match send_text (error_send_fault w) (ErrorText (Py.exn_str exc)) with
      | inr sent => (sent, Continue)
      | inl e2 =>
          if Py.is_Exception (Py.exn_class e2) then ([], Continue)
          else ([], Uncaught e2)
      end
    else ([], Uncaught exc)
  end.

(** One pass of [while True]: the callbacks that came in since the last pass,
    the body, and the handlers when it raises. *)
Definition iteration (E : externals) (w : turn) (face_tracker : FaceTracker.t)
    (received : Py.M message) : FaceTracker.t * (list text * control) :=
  let r := body E w (FaceTracker.deliver face_tracker (late w)) received in
  (fst r,
   match snd r with
   | inr done => done
   | inl exc => handle w exc
   end).

(** The loop over the messages of a connection: the tracker at the end,
    everything sent, and the exception that ended it, if one did. *)
Fixpoint ws_loop (E : externals) (face_tracker : FaceTracker.t)
    (inbox : list (turn * Py.M message))
  : FaceTracker.t * list text * option Py.exn :=
  match inbox with
  | [] => (face_tracker, [], None)
  | (w, received) :: rest =>
      let r := iteration E w face_tracker received in
      match snd (snd r) with
      | Continue =>
          let '(final, sent, exc) := ws_loop E (fst r) rest in
          (final, fst (snd r) ++ sent, exc)
      | Break => (fst r, fst (snd r), None)
      | Uncaught e => (fst r, fst (snd r), Some e)
      end
  end.

(** [ws_track(websocket)] after [accept]: the global tracker, made when
    there is none. *)
Definition ws_track (E : externals) (face_tracker : option FaceTracker.t)
    (inbox : list (turn * Py.M message))
  : FaceTracker.t * list text * option Py.exn :=
  let face_tracker :=
    match face_tracker with
    | None => FaceTracker.init
    | Some t => t
    end in
  ws_loop E face_tracker inbox.

End Loop.

(** ** Stand-ins for the libraries, for the closed examples *)

Module Doubles.
Import Ext.
Local Open Scope string_scope.

Definition one_pixel : ndarray := [[(x00, x00, x00)]].

(** Two readings of the clock: the epoch, and one second after it. *)
Definition at_0s : Assembler.clock := Assembler.Clock PrimFloat.zero eq_refl.
Definition at_1s : Assembler.clock := Assembler.Clock PrimFloat.one eq_refl.

(** The eleven bytes of the document with the one member ts, 1000. *)
Definition ts_1000_bytes : list byte :=
  [x7b; x22; x74; x73; x22; x3a; x31; x30; x30; x30; x7d].

(** A stand-in that knows two documents, the empty object and the one above,
    and takes a buffer that starts with the JPEG marker FF D8 for a
    one-pixel image; like OpenCV it raises on an empty buffer, and like PIL
    on what is no image. *)
Definition lab : externals :=
  {| json_loads := fun text =>
       if String.eqb text "{}" then Py.ret (Json.JDict [])
       else if String.eqb text (string_of_list_byte ts_1000_bytes) then
         Py.ret (Json.JDict [("ts", Json.JInt 1000)])
       else Py.raise (Py.Exn Py.JSONDecodeError
                        "Expecting value: line 1 column 1 (char 0)");
     int_of_str := fun _ =>
       Py.raise (Py.Exn Py.ValueError "invalid literal for int() with base 10");
     imdecode := fun b =>
       match b with
       | [] => Py.raise (Py.Exn Py.Cv2Error "(-215:Assertion failed) !buf.empty()")
       | xff :: xd8 :: _ => Py.ret (Some one_pixel)
       | _ => Py.ret None
       end;
     cvtColor := fun img => img;
     pil_open_rgb := fun _ =>
       Py.raise (Py.Exn Py.OSError "cannot identify image file") |}.

End Doubles.

(** ** Facts about the tracker *)

Module FaceTrackerFacts.
Import Detection FaceTracker.
Import PrimFloat.

(** The last [n] elements of a list. *)
Definition lastn {A} (n : nat) (l : list A) : list A :=
  skipn (List.length l - n) l.

Lemma deliver_hist self cbs : _fps_hist (deliver self cbs) = _fps_hist self.
Proof.
  unfold deliver. revert self.
  induction cbs as [|c cbs IH]; intros self; simpl; [reflexivity|].
  now rewrite IH.
Qed.

Lemma deliver_pending self c cbs :
  _future self = Some Pending ->
  _future (deliver self (c :: cbs)) = Some (Finished c).
Proof.
  intros Hp. unfold deliver. simpl.
  assert (Hf : _future (_on_result self (fst c) (snd c)) = Some (Finished c)).
  { unfold _on_result. rewrite Hp. simpl. now destruct c. }
  revert Hf. generalize (_on_result self (fst c) (snd c)). clear.
  induction cbs as [|d cbs IH]; intros s Hs; simpl; [exact Hs|].
  apply IH. unfold _on_result. rewrite Hs. reflexivity.
Qed.

Lemma deliver_done self f cbs :
  _future self = Some f -> done f = true ->
  _future (deliver self cbs) = Some f.
Proof.
  unfold deliver. revert self.
  induction cbs as [|d cbs IH]; intros s Hs Hd; simpl; [exact Hs|].
  apply IH; [|exact Hd]. unfold _on_result. rewrite Hs, Hd. reflexivity.
Qed.

Lemma tl_skipn_snoc {A} (x : A) l : forall k,
  (k < List.length l)%nat ->
  tl (skipn k l ++ [x]) = skipn (S k) l ++ [x].
Proof.
  induction l as [|a l IH]; intros k Hk; simpl in Hk; [lia|].
  destruct k as [|k]; [reflexivity|].
  change (skipn (S k) (a :: l)) with (skipn k l).
  change (skipn (S (S k)) (a :: l)) with (skipn (S k) l).
  apply IH. lia.
Qed.

Lemma record_completion_lastn l ts :
  record_completion (lastn 30 l) ts = lastn 30 (l ++ [ts]).
Proof.
  unfold record_completion, lastn.
  rewrite !length_app, length_skipn. simpl List.length.
  destruct (Z.ltb_spec 30 (Z.of_nat (List.length l - (List.length l - 30) + 1))) as [Hlt|Hge].
  - assert (Hl : (30 <= List.length l)%nat) by lia.
    replace (List.length l + 1 - 30)%nat with (S (List.length l - 30)) by lia.
    rewrite tl_skipn_snoc by lia.
    rewrite skipn_app.
    replace (S (List.length l - 30) - List.length l)%nat with 0%nat by lia.
    reflexivity.
  - assert (Hl : (List.length l < 30)%nat) by lia.
    replace (List.length l - 30)%nat with 0%nat by lia.
    replace (List.length l + 1 - 30)%nat with 0%nat by lia.
    reflexivity.
Qed.

Lemma lastn_length {A} n (l : list A) : (List.length (lastn n l) <= n)%nat.
Proof. unfold lastn. rewrite length_skipn. lia. Qed.

Ltac hist_simpl :=
  repeat first
    [ rewrite deliver_hist
    | progress cbn [_fps_hist _future create_future cancel_future with_hist
                    Py.ret Py.raise fst snd] ].

(** What one call does to the history: it grows by the recorded completion. *)
Lemma step_hist self c :
  _fps_hist (fst (step self c)) =
  match recorded (snd (step self c)) with
  | Some ts => record_completion (_fps_hist self) ts
  | None => _fps_hist self
  end.
Proof.
  unfold step, process. cbn [fst snd recorded].
  destruct (detect c) as [e|]; [now hist_simpl|].
  destruct (_future (deliver (create_future (deliver self (late c))) (during c)))
    as [[|[r ts]|]|] eqn:Hf; hist_simpl; try reflexivity.
  rewrite Hf. reflexivity.
Qed.

Lemma run_cons self c cs :
  run self (c :: cs) =
  (fst (run (fst (step self c)) cs), snd (step self c) :: snd (run (fst (step self c)) cs)).
Proof. reflexivity. Qed.

Lemma completions_cons r rs :
  completions (r :: rs) =
  match recorded r with Some ts => [ts] | None => [] end ++ completions rs.
Proof. reflexivity. Qed.

Lemma run_hist cs : forall self prev,
  _fps_hist self = lastn 30 prev ->
  _fps_hist (fst (run self cs)) = lastn 30 (prev ++ completions (snd (run self cs))).
Proof.
  induction cs as [|c cs IH]; intros self prev Hinv.
  - simpl. now rewrite app_nil_r.
  - rewrite run_cons. cbn [fst snd]. rewrite completions_cons.
    pose proof (step_hist self c) as Hs.
    destruct (recorded (snd (step self c))) as [ts|].
    + rewrite app_assoc. apply IH. rewrite Hs, Hinv. apply record_completion_lastn.
    + cbn [app]. apply IH. now rewrite Hs.
Qed.

(** A result with no face, and forty calls that each complete in time. *)
Definition empty_result : FaceLandmarkerResult := mkResult [] [] [].

Definition completed_call (ts : Z) : call :=
  {| late := []; frame_rgb := []; ts_ms := ts; detect := None;
     during := [(empty_result, ts)] |}.

Definition forty_calls : list call :=
  map (fun n => completed_call (Z.of_nat n)) (seq 1 40).

Example forty_completions :
  _fps_hist (fst (run init forty_calls)) = map Z.of_nat (seq 11 30).
Proof. vm_compute. reflexivity. Qed.

(** The completion of a call, read off what the engine does during it: when
    [detect_async] takes the frame, the timestamp of the first callback that
    arrives while the call waits; none when the engine raises or the wait
    times out. *)
Definition first_completion (c : call) : option Z :=
  match detect c, during c with
  | None, (_, ts) :: _ => Some ts
  | _, _ => None
  end.

(** The completions of a sequence of calls, oldest first. *)
Definition delivered (cs : list call) : list Z :=
  flat_map (fun c => match first_completion c with Some ts => [ts] | None => [] end) cs.

(** A call records its completion, whatever the tracker's state. *)
Lemma step_records_first_completion self c :
  recorded (snd (step self c)) = first_completion c.
Proof.
  unfold step, process, first_completion. cbn [snd recorded].
  destruct (detect c) as [e|]; cbn [fst snd]; [reflexivity|].
  destruct (during c) as [|[result t0] rest]; [reflexivity|].
  rewrite (@deliver_pending (create_future (deliver self (late c))) (result, t0) rest)
    by reflexivity.
  cbn [fst snd _future with_hist Py.ret].
  rewrite (@deliver_pending (create_future (deliver self (late c))) (result, t0) rest)
    by reflexivity.
  reflexivity.
Qed.

Lemma run_records_delivered cs : forall self,
  completions (snd (run self cs)) = delivered cs.
Proof.
  induction cs as [|c cs IH]; intros self; [reflexivity|].
  rewrite run_cons. cbn [snd]. rewrite completions_cons.
  rewrite step_records_first_completion, IH. reflexivity.
Qed.

(** Forty calls complete forty times, with the timestamps 1 to 40. *)
Example forty_delivered : delivered forty_calls = map Z.of_nat (seq 1 40).
Proof. reflexivity. Qed.

(** C5: along every run of calls from a fresh tracker, the completions being
    the first callbacks that arrive during the calls that the engine takes:
    the timestamps that the calls record are those completions; the history
    has at most 30 entries and is the last 30 of the completions, oldest
    first (so the oldest is the one evicted); after 40 completions it is
    exactly the last 30 of them. *)
Theorem history_holds_latest_30 (cs : list call) :
  let final := fst (run init cs) in
  let recorded_ts := delivered cs in
  completions (snd (run init cs)) = recorded_ts /\
  (List.length (_fps_hist final) <= 30)%nat /\
  _fps_hist final = skipn (List.length recorded_ts - 30) recorded_ts /\
  (List.length recorded_ts = 40%nat ->
   _fps_hist final = skipn 10 recorded_ts /\ List.length (_fps_hist final) = 30%nat).
Proof.
  intros final recorded_ts.
  assert (Hc : completions (snd (run init cs)) = recorded_ts)
    by apply run_records_delivered.
  assert (H : _fps_hist final = lastn 30 recorded_ts).
  { unfold final. rewrite <- Hc. apply (run_hist cs init []). reflexivity. }
  split; [exact Hc|].
  split; [rewrite H; apply lastn_length|].
  split; [exact H|].
  intros H40. rewrite H. unfold lastn. rewrite H40. cbn [Nat.sub].
  split; [reflexivity|]. rewrite length_skipn. lia.
Qed.

(** [fps] on small histories: one entry, timestamps that go back, and
    three completions in a fifth of a second. *)
Example fps_small_histories :
  fps (with_hist init [1000]%Z) = 0%float /\
  fps (with_hist init [1200; 1100; 1000]%Z) = 0%float /\
  fps (with_hist init [1000; 1000]%Z) = 0%float /\
  fps (with_hist init [0; 100; 200]%Z) = 10%float.
Proof. repeat split. Qed.

(** C4: [fps] is exactly 0.0 with fewer than two entries and when
    newest - oldest is not positive, and (count - 1) / (dt / 1000)
    otherwise, in the arithmetic of Python floats; the history
    [1000, 1100, 1200] gives exactly 10.0. *)
Theorem fps_cases (self : t) :
  let h := _fps_hist self in
  let count := Z.of_nat (List.length h) in
  let dt := (last h 0 - hd 0 h)%Z in
  ((count < 2)%Z -> fps self = 0%float) /\
  ((2 <= count)%Z -> (dt <= 0)%Z -> fps self = 0%float) /\
  ((2 <= count)%Z -> (0 < dt)%Z ->
   fps self = (Float64.of_int (count - 1) / (Float64.of_int dt / 1000))%float) /\
  fps (with_hist self [1000; 1100; 1200]%Z) = 10%float.
Proof.
  intros h count dt. unfold fps. fold h. fold count. fold dt.
  split; [|split; [|split]].
  - intros Hc. destruct (Z.ltb_spec count 2); [reflexivity|lia].
  - intros Hc Hd. destruct (Z.ltb_spec count 2); [reflexivity|].
    destruct (Z.leb_spec dt 0); [reflexivity|lia].
  - intros Hc Hd. destruct (Z.ltb_spec count 2); [lia|].
    destruct (Z.leb_spec dt 0); [lia|reflexivity].
  - vm_compute. reflexivity.
Qed.

(** C10: a call of [process] that returns [None] (the wait timed out) leaves
    the history as it was, and so [fps] too. *)
Theorem timeout_keeps_history (self : t) (frame : Ext.ndarray) (ts : Z)
    (cbs : list completion) (self' : t) :
  process self frame ts None cbs = (self', Py.ret None) ->
  _fps_hist self' = _fps_hist self /\ fps self' = fps self.
Proof.
  intros H.
  assert (Hh : _fps_hist self' = _fps_hist self).
  { unfold process in H.
    destruct (_future (deliver (create_future self) cbs)) as [[|[r t0]|]|];
      inversion H; subst; hist_simpl; reflexivity. }
  split; [exact Hh|]. unfold fps. rewrite Hh. reflexivity.
Qed.

Lemma timeout_keeps_history_witness :
  let self := with_hist init [1000; 1100; 1200]%Z in
  _fps_hist (cancel_future (create_future self)) = [1000; 1100; 1200]%Z /\
  fps (cancel_future (create_future self)) = fps self.
Proof.
  intros self.
  apply (@timeout_keeps_history self [] 1300%Z [] (cancel_future (create_future self))).
  reflexivity.
Defined.



End FaceTrackerFacts.

(** ** Checks of the wire model on small inputs *)

Module WireExamples.
Import Wire.

Example prefix_of_eleven : from_bytes_little [x0b; x00; x00; x00] = 11%N.
Proof. reflexivity. Qed.

Example prefix_is_little_endian : from_bytes_little [x00; x01; x00; x00] = 256%N.
Proof. reflexivity. Qed.

Example short_prefix : from_bytes_little [x05] = 5%N /\ from_bytes_little [] = 0%N.
Proof. split; reflexivity. Qed.

Example slice_inside : slice [x01; x02; x03; x04; x05] 1 3 = [x02; x03].
Proof. reflexivity. Qed.

Example slice_cut : slice [x01; x02; x03] 1 4294967299 = [x02; x03].
Proof. reflexivity. Qed.

Example slice_past_end : slice [x01; x02; x03] 4 9 = [].
Proof. reflexivity. Qed.

Example two_byte_character : utf8_valid [xc3; xa9] = true.
Proof. reflexivity. Qed.

Example four_byte_character : utf8_valid [xf0; x9f; x98; x80] = true.
Proof. reflexivity. Qed.

Example overlong_form : utf8_valid [xc0; x80] = false.
Proof. reflexivity. Qed.

Example surrogate : utf8_valid [xed; xa0; x80] = false.
Proof. reflexivity. Qed.

Example above_last_code_point : utf8_valid [xf4; x90; x80; x80] = false.
Proof. reflexivity. Qed.

Example cut_character : utf8_valid [xe2; x82] = false.
Proof. reflexivity. Qed.

End WireExamples.

(** ** Facts about the pose *)

Module PoseFacts.
Import Detection Pose.
Import PrimFloat.
Local Open Scope R_scope.

Lemma to_R_finite f s m e :
  FloatOps.Prim2SF f = SpecFloat.S754_finite s m e ->
  Float64.to_R f = IZR (if s then Z.neg m else Z.pos m) * powerRZ 2 e.
Proof. intros H. unfold Float64.to_R. now rewrite H. Qed.

Lemma to_R_zero : Float64.to_R 0%float = 0.
Proof. reflexivity. Qed.

Lemma to_R_one : Float64.to_R 1%float = 1.
Proof.
  rewrite (@to_R_finite 1%float false 4503599627370496 (-52)) by reflexivity.
  cbn [powerRZ]. change (Pos.to_nat 52) with 52%nat. cbn [pow]. lra.
Qed.

Lemma to_R_minus_one : Float64.to_R (-1)%float = -1.
Proof.
  rewrite (@to_R_finite (-1)%float true 4503599627370496 (-52)) by reflexivity.
  cbn [powerRZ]. change (Pos.to_nat 52) with 52%nat. cbn [pow]. lra.
Qed.

Lemma to_R_positive f m e :
  FloatOps.Prim2SF f = SpecFloat.S754_finite false m e -> 0 < Float64.to_R f.
Proof.
  intros H. rewrite (@to_R_finite f false m e H).
  apply Rmult_lt_0_compat; [apply IZR_lt; lia|apply powerRZ_lt; lra].
Qed.

Lemma reshape_16 (matrix : list Float64.finite) :
  List.length matrix = 16%nat -> reshape_4x4 matrix = Py.ret matrix.
Proof. intros H. unfold reshape_4x4. now rewrite H. Qed.

(** With 16 entries the decomposition returns, whichever branch it takes. *)
Lemma extract_pose_returns (matrix : list Float64.finite) :
  List.length matrix = 16%nat ->
  exists angles, extract_pose_from_matrix matrix = Py.ret angles.
Proof.
  intros H. unfold extract_pose_from_matrix. rewrite (reshape_16 _ H).
  cbn [Py.bind Py.ret].
  destruct (negb _); eexists; reflexivity.
Qed.

(** A rotation by 90 degrees about the second axis: the singular case. *)
Definition gimbal_lock : matrix :=
  let o := Float64.zero in
  let i := Float64.one in
  [ o; o; i; o;
    o; i; o; o;
    Float64.minus_one; o; o; o;
    o; o; o; i ].

(** A matrix whose first column has the length 1e-6, the bound itself. *)
Definition on_the_bound : matrix :=
  let o := Float64.zero in
  let i := Float64.one in
  [ o; o; i; o;
    Float64.Finite 1e-6%float eq_refl; i; o; o;
    o; o; i; o;
    o; o; o; i ].

(** A rotation by 90 degrees about the second axis and a half turn about
    the first: singular, with r11 = -1 and r12 = 0. *)
Definition gimbal_lock_half_turn : matrix :=
  let o := Float64.zero in
  let i := Float64.one in
  [ o; o; i; o;
    o; Float64.minus_one; o; o;
    Float64.minus_one; o; o; o;
    o; o; o; i ].

(** A matrix whose first column is so long that its squares overflow. *)
Definition overflowing : matrix :=
  let o := Float64.zero in
  let i := Float64.one in
  [ Float64.Finite 1e200%float eq_refl; o; o; o;
    o; i; o; o;
    i; o; i; o;
    o; o; o; i ].

Lemma degrees_right_angle : degrees (PI / 2) = 90.
Proof. unfold degrees. field. apply PI_neq0. Qed.

Lemma degrees_zero : degrees 0 = 0.
Proof. unfold degrees. ring. Qed.

Lemma degrees_minus_PI : degrees (- PI) = -180.
Proof. unfold degrees. field. apply PI_neq0. Qed.

Lemma atan2_up (y : R) : 0 < y -> atan2 y 0 = PI / 2.
Proof.
  intros Hy. unfold atan2.
  destruct (Rlt_dec 0 0) as [H|_]; [lra|].
  destruct (Rlt_dec 0 y) as [_|H]; [reflexivity|lra].
Qed.

(** C8: when sy = sqrt(r00^2 + r10^2), computed in binary64 as the code
    computes it, is below 1e-6, the decomposition returns (it raises
    nothing) with roll 0, pitch = atan2(-r12, r11) and yaw = atan2(-r20, sy),
    in degrees. *)
Theorem singular_matrix_pose (matrix : list Float64.finite) :
  List.length matrix = 16%nat ->
  let sy := PrimFloat.sqrt (entry matrix 0 0 * entry matrix 0 0
                            + entry matrix 1 0 * entry matrix 1 0)%float in
  (sy <? 1e-6)%float = true ->
  extract_pose_from_matrix matrix
  = Py.ret (degrees (atan2_64 (- entry matrix 2 0)%float sy),
            degrees (atan2_64 (- entry matrix 1 2)%float (entry matrix 1 1)),
            0).
Proof.
  intros Hlen sy Hsy. unfold extract_pose_from_matrix.
  rewrite (reshape_16 _ Hlen). cbn [Py.bind Py.ret]. fold sy.
  rewrite Hsy. reflexivity.
Qed.

Lemma singular_matrix_pose_witness :
  extract_pose_from_matrix gimbal_lock
  = Py.ret (degrees (atan2_64 (- (-1))%float (PrimFloat.sqrt (0 * 0 + 0 * 0)%float)),
            degrees (atan2_64 (- 0)%float 1%float),
            0).
Proof.
  apply (singular_matrix_pose gimbal_lock); reflexivity.
Defined.

(** The same matrix, evaluated: yaw 90, pitch 0, roll 0. *)
Example gimbal_lock_angles :
  extract_pose_from_matrix gimbal_lock = Py.ret (90, 0, 0).
Proof.
  unfold extract_pose_from_matrix. rewrite reshape_16 by reflexivity.
  cbn [Py.bind Py.ret].
  change (PrimFloat.sqrt _) with 0%float. change (negb (0 <? 1e-6)%float) with false.
  cbv iota.
  change (entry gimbal_lock 2 0) with (-1)%float.
  change (entry gimbal_lock 1 2) with 0%float.
  change (entry gimbal_lock 1 1) with 1%float.
  change (atan2_64 (- (-1)) 0) with (atan2 (Float64.to_R 1%float) (Float64.to_R 0%float)).
  change (atan2_64 (- 0) 1) with 0.
  rewrite to_R_zero, to_R_one, atan2_up by lra.
  now rewrite degrees_right_angle, degrees_zero.
Qed.

(** With r11 = -1 and r12 = 0 the first argument of atan2 is the zero of
    sign minus, and the pitch is -180, as [math.atan2(-0.0, -1.0)] is -pi. *)
Example gimbal_lock_half_turn_angles :
  extract_pose_from_matrix gimbal_lock_half_turn = Py.ret (90, -180, 0).
Proof.
  unfold extract_pose_from_matrix. rewrite reshape_16 by reflexivity.
  cbn [Py.bind Py.ret].
  change (PrimFloat.sqrt _) with 0%float. change (negb (0 <? 1e-6)%float) with false.
  cbv iota.
  change (entry gimbal_lock_half_turn 2 0) with (-1)%float.
  change (entry gimbal_lock_half_turn 1 2) with 0%float.
  change (entry gimbal_lock_half_turn 1 1) with (-1)%float.
  change (atan2_64 (- (-1)) 0) with (atan2 (Float64.to_R 1%float) (Float64.to_R 0%float)).
  change (atan2_64 (- 0) (-1)) with (- PI).
  rewrite to_R_zero, to_R_one, atan2_up by lra.
  now rewrite degrees_right_angle, degrees_minus_PI.
Qed.

(** On the bound the matrix is not singular: sy is 1e-6, the test fails, and
    roll is atan2(r10, r00) = 90, not 0. *)
Example on_the_bound_is_not_singular :
  (PrimFloat.sqrt (0 * 0 + 1e-6 * 1e-6) <? 1e-6)%float = false /\
  exists yaw pitch, extract_pose_from_matrix on_the_bound = Py.ret (yaw, pitch, 90).
Proof.
  split; [reflexivity|].
  unfold extract_pose_from_matrix. rewrite reshape_16 by reflexivity.
  cbn [Py.bind Py.ret].
  change (negb (PrimFloat.sqrt _ <? 1e-6)%float) with true. cbv iota.
  eexists _, _. f_equal. f_equal.
  change (entry on_the_bound 1 0) with 1e-6%float.
  change (entry on_the_bound 0 0) with 0%float.
  change (atan2_64 1e-6 0) with (atan2 (Float64.to_R 1e-6%float) (Float64.to_R 0%float)).
  rewrite to_R_zero.
  rewrite atan2_up; [apply degrees_right_angle|].
  exact (@to_R_positive 1e-6%float 4722366482869645 (-72) eq_refl).
Qed.

(** When the squares overflow, sy is +infinity: the matrix is not singular
    and the yaw is 0, as [math.atan2(y, inf)] is. *)
Example overflowing_yaw :
  exists pitch roll, extract_pose_from_matrix overflowing = Py.ret (0, pitch, roll).
Proof.
  unfold extract_pose_from_matrix. rewrite reshape_16 by reflexivity.
  cbn [Py.bind Py.ret].
  change (PrimFloat.sqrt _) with infinity.
  change (negb (infinity <? 1e-6)%float) with true. cbv iota.
  change (atan2_64 _ infinity) with 0. rewrite degrees_zero.
  eexists _, _. reflexivity.
Qed.

End PoseFacts.

(** ** Facts about the payload *)

Module AssemblerFacts.
Import Detection Ext Assembler.
Import PrimFloat.
Local Open Scope string_scope.
Local Open Scope R_scope.

Definition in_unit (v : R) : Prop := 0 <= v <= 1.

(** Every score of the first face is in the unit interval. *)
Definition unit_scores (result : FaceLandmarkerResult) : Prop :=
  match face_blendshapes result with
  | [] => True
  | entries :: _ => Forall (fun c => in_unit (score c)) entries
  end.

Lemma py_max_lower a b : a <= py_max a b.
Proof. unfold py_max. destruct (Rlt_dec a b); lra. Qed.

Lemma py_min_upper a b : py_min a b <= a.
Proof. unfold py_min. destruct (Rlt_dec b a); lra. Qed.

Lemma py_max_unit a b : in_unit a -> in_unit b -> in_unit (py_max a b).
Proof. unfold py_max, in_unit. destruct (Rlt_dec a b); lra. Qed.

Lemma py_min_unit a b : in_unit a -> in_unit b -> in_unit (py_min a b).
Proof. unfold py_min, in_unit. destruct (Rlt_dec b a); lra. Qed.

Lemma first_score_unit entries name :
  Forall (fun c => in_unit (score c)) entries -> in_unit (first_score entries name).
Proof.
  induction 1 as [|c entries Hc _ IH]; simpl.
  - unfold in_unit; lra.
  - destruct (String.eqb (category_name c) name); assumption.
Qed.

Lemma lookup_unit result name :
  unit_scores result -> in_unit (blendshape_lookup (face_blendshapes result) name).
Proof.
  unfold unit_scores, blendshape_lookup.
  destruct (face_blendshapes result) as [|entries rest]; intros H.
  - unfold in_unit; lra.
  - now apply first_score_unit.
Qed.

(** The payload of a result with a face, field by field. *)
Definition face_payload (result : FaceLandmarkerResult) (ts_ms : Z)
    (angles : R * R * R) (fps_server : PrimFloat.float) (ms : Z) : payload :=
  let blend := face_blendshapes result in
  let '(yaw, pitch, roll) := angles in
  {| ts := ts_ms;
     present := true;
     pose := {| yawDeg := yaw; pitchDeg := pitch; rollDeg := roll |};
     eye := {| leftOpen := py_max 0 (1 - blendshape_lookup blend "eyeBlinkLeft");
               rightOpen := py_max 0 (1 - blendshape_lookup blend "eyeBlinkRight") |};
     mouth := {| open := py_min 1 (blendshape_lookup blend "jawOpen");
                 smile := (blendshape_lookup blend "mouthSmileLeft"
                           + blendshape_lookup blend "mouthSmileRight") * 0.5 |};
     brow := {| leftUp := py_max (blendshape_lookup blend "browInnerUp")
                                 (blendshape_lookup blend "browOuterUpLeft");
                rightUp := py_max (blendshape_lookup blend "browInnerUp")
                                  (blendshape_lookup blend "browOuterUpRight") |};
     debug := {| serverFps := fps_server; latencyMs := ms |} |}.

(** The payload without a face. *)
Definition absent_payload (ts_ms : Z) (fps_server : PrimFloat.float) : payload :=
  {| ts := ts_ms;
     present := false;
     pose := {| yawDeg := 0; pitchDeg := 0; rollDeg := 0 |};
     eye := {| leftOpen := 1; rightOpen := 1 |};
     mouth := {| open := 0; smile := 0 |};
     brow := {| leftUp := 0; rightUp := 0 |};
     debug := {| serverFps := fps_server; latencyMs := 0 |} |}.

Definition no_face (result : option FaceLandmarkerResult) : bool :=
  match result with
  | None => true
  | Some r => (List.length (face_landmarks r) =? 0)%nat
  end.

(** [build_payload] taken apart: what it returns, and when. *)
Lemma build_payload_cases E result header fps_server now1 now2 p :
  build_payload E result header fps_server now1 now2 = Py.ret p <->
  exists ts_ms, header_ts E header now1 = Py.ret ts_ms /\
    if no_face result then p = absent_payload ts_ms fps_server
    else exists r angles ms,
      result = Some r /\ pose_of r = Py.ret angles /\
      latency E header now2 = Py.ret ms /\
      p = face_payload r ts_ms angles fps_server ms.
Proof.
  unfold build_payload, Py.bind, Py.ret.
  destruct (header_ts E header now1) as [e|ts_ms]; cbn [Py.bind].
  - split; [discriminate|]. intros (t0 & H & _). discriminate.
  - destruct result as [r|]; cbn [no_face].
    + destruct (List.length (face_landmarks r) =? 0)%nat.
      * split.
        -- intros [= <-]. eexists; split; reflexivity.
        -- intros (t0 & [= <-] & ->). reflexivity.
      * destruct (pose_of r) as [e|[[yaw pitch] roll]] eqn:Hpose.
        -- split; [discriminate|].
           intros (t0 & _ & r0 & a & ms & Hr & Hp & _).
           unfold Py.ret in *. congruence.
        -- destruct (latency E header now2) as [e|ms] eqn:Hlat.
           ++ split; [discriminate|].
              intros (t0 & _ & r0 & a & ms & _ & _ & Hl & _).
              unfold Py.ret in *. congruence.
           ++ split.
              ** intros [= <-]. exists ts_ms. split; [reflexivity|].
                 exists r, (yaw, pitch, roll), ms. repeat split; assumption.
              ** intros (t0 & Ht & r0 & a & ms0 & Hr & Hp & Hl & ->).
                 unfold Py.ret in *.
                 assert (r0 = r) by congruence. subst r0.
                 assert (a = (yaw, pitch, roll)) by congruence. subst a.
                 assert (ms0 = ms) by congruence. subst ms0.
                 assert (t0 = ts_ms) by congruence. subst t0.
                 reflexivity.
    + split.
      * intros [= <-]. eexists; split; reflexivity.
      * intros (t0 & [= <-] & ->). reflexivity.
Qed.

(** Header accesses on a dict whose [ts] is an int. *)
Lemma header_ts_int E d T now :
  Json.lookup "ts" d = Some (Json.JInt T) ->
  header_ts E (Json.JDict d) now = Py.ret T.
Proof. intros H. unfold header_ts. cbn. now rewrite H. Qed.

Lemma latency_int E d T now :
  Json.lookup "ts" d = Some (Json.JInt T) ->
  latency E (Json.JDict d) now
  = Py.ret (if (T =? 0)%Z then 0%Z else Z.max 0 (Json.trunc (now_ms now) - T)).
Proof.
  intros H. unfold latency. cbn [Json.get Json.getitem Py.bind Py.ret].
  rewrite H. cbn [Json.truthy Py.bind Py.ret Json.int].
  now destruct (T =? 0)%Z.
Qed.

(** A face with 478 landmarks, the identity matrix, and scores above 1 for
    the inner brow and both sides of the smile. *)
Definition identity_matrix : matrix :=
  let o := Float64.zero in
  let i := Float64.one in
  [ i; o; o; o;
    o; i; o; o;
    o; o; i; o;
    o; o; o; i ].

Definition raised_brow : FaceLandmarkerResult :=
  {| face_landmarks := [repeat (Landmark 0 0 0) 478];
     face_blendshapes :=
       [[mkCategory "browInnerUp" 1.5;
         mkCategory "mouthSmileLeft" 1.5;
         mkCategory "mouthSmileRight" 1.5]];
     facial_transformation_matrixes := [identity_matrix] |}.

(** C6 as stated fails: with scores above 1 the payload's brow and smile
    fields are above 1. *)
Lemma brow_and_smile_above_one :
  exists p,
    build_payload Doubles.lab (Some raised_brow)
      (Json.JDict [("ts", Json.JInt 1000)]) 0%float Doubles.at_1s Doubles.at_1s = Py.ret p /\
    leftUp (brow p) = 1.5 /\ rightUp (brow p) = 1.5 /\ smile (mouth p) = 1.5 /\
    ~ in_unit (leftUp (brow p)).
Proof.
  destruct (PoseFacts.extract_pose_returns identity_matrix eq_refl) as [angles Ha].
  exists (face_payload raised_brow 1000 angles 0%float
            (Z.max 0 (Json.trunc (now_ms Doubles.at_1s) - 1000))).
  split.
  - apply build_payload_cases. exists 1000%Z. split; [reflexivity|].
    cbn [no_face raised_brow face_landmarks List.length Nat.eqb].
    exists raised_brow, angles, (Z.max 0 (Json.trunc (now_ms Doubles.at_1s) - 1000)).
    repeat split. exact Ha.
  - assert (Hmax : py_max 1.5 0 = 1.5).
    { unfold py_max. destruct (Rlt_dec 1.5 0); lra. }
    destruct angles as [[yaw pitch] roll].
    cbn [face_payload brow mouth leftUp rightUp smile raised_brow face_blendshapes
         blendshape_lookup first_score category_name score].
    cbn. rewrite Hmax. repeat split; try lra. unfold in_unit. lra.
Qed.

(** C6 amended: for any scores both eye fields are at least 0 and mouth.open
    is at most 1; when every score of the first face is in [0,1], all six of
    the eye, mouth and brow fields are in [0,1]. *)
Theorem expression_fields_bounds (E : externals) (result : option FaceLandmarkerResult)
    (header : Json.value) (fps_server : PrimFloat.float) (now1 now2 : clock)
    (p : payload) :
  build_payload E result header fps_server now1 now2 = Py.ret p ->
  (0 <= leftOpen (eye p) /\ 0 <= rightOpen (eye p) /\ open (mouth p) <= 1) /\
  (match result with Some r => unit_scores r | None => True end ->
   in_unit (leftOpen (eye p)) /\ in_unit (rightOpen (eye p)) /\
   in_unit (open (mouth p)) /\ in_unit (smile (mouth p)) /\
   in_unit (leftUp (brow p)) /\ in_unit (rightUp (brow p))).
Proof.
  intros H. apply build_payload_cases in H. destruct H as (ts_ms & _ & H).
  destruct (no_face result).
  - subst p. cbn. unfold in_unit. repeat split; lra.
  - destruct H as (r & [[yaw pitch] roll] & ms & -> & _ & _ & ->).
    cbn [face_payload eye mouth brow leftOpen rightOpen open smile leftUp rightUp].
    split.
    + repeat split; first [apply py_max_lower | apply py_min_upper].
    + intros Hu.
      pose proof (lookup_unit r "eyeBlinkLeft" Hu) as H1.
      pose proof (lookup_unit r "eyeBlinkRight" Hu) as H2.
      pose proof (lookup_unit r "jawOpen" Hu) as H3.
      pose proof (lookup_unit r "mouthSmileLeft" Hu) as H4.
      pose proof (lookup_unit r "mouthSmileRight" Hu) as H5.
      pose proof (lookup_unit r "browInnerUp" Hu) as H6.
      pose proof (lookup_unit r "browOuterUpLeft" Hu) as H7.
      pose proof (lookup_unit r "browOuterUpRight" Hu) as H8.
      repeat split;
        try (apply py_max_unit; unfold in_unit in *; lra);
        try (apply py_min_unit; unfold in_unit in *; lra);
        unfold in_unit in *; lra.
Qed.

(** A face whose scores are in range, with the identity matrix. *)
Definition half_smile : FaceLandmarkerResult :=
  {| face_landmarks := [repeat (Landmark 0 0 0) 478];
     face_blendshapes :=
       [[mkCategory "jawOpen" 0.6; mkCategory "mouthSmileLeft" 0.5]];
     facial_transformation_matrixes := [identity_matrix] |}.

Lemma half_smile_unit_scores : unit_scores half_smile.
Proof.
  unfold unit_scores, half_smile, in_unit. cbn [face_blendshapes].
  repeat constructor; cbn [score]; lra.
Qed.

Lemma expression_fields_bounds_witness :
  exists p,
    build_payload Doubles.lab (Some half_smile)
      (Json.JDict [("ts", Json.JInt 1000)]) 0%float Doubles.at_1s Doubles.at_1s = Py.ret p /\
    in_unit (leftOpen (eye p)) /\ in_unit (rightOpen (eye p)) /\
    in_unit (open (mouth p)) /\ in_unit (smile (mouth p)) /\
    in_unit (leftUp (brow p)) /\ in_unit (rightUp (brow p)).
Proof.
  destruct (PoseFacts.extract_pose_returns identity_matrix eq_refl) as [angles Ha].
  assert (Hp : build_payload Doubles.lab (Some half_smile)
                 (Json.JDict [("ts", Json.JInt 1000)]) 0%float Doubles.at_1s Doubles.at_1s
               = Py.ret (face_payload half_smile 1000 angles 0%float
                           (Z.max 0 (Json.trunc (now_ms Doubles.at_1s) - 1000)))).
  { apply build_payload_cases. exists 1000%Z. split; [reflexivity|].
    cbn [no_face half_smile face_landmarks List.length Nat.eqb].
    exists half_smile, angles, (Z.max 0 (Json.trunc (now_ms Doubles.at_1s) - 1000)).
    repeat split. exact Ha. }
  eexists. split; [exact Hp|].
  exact (proj2 (@expression_fields_bounds Doubles.lab (Some half_smile) _
    0%float Doubles.at_1s Doubles.at_1s
                  _ Hp)
               half_smile_unit_scores).
Defined.

(** The landmark at index [i] of a face, the others at the origin. *)
Definition face_with (left_eye right_eye nose : NormalizedLandmark)
  : list NormalizedLandmark :=
  map (fun i =>
         if (i =? 33)%nat then left_eye
         else if (i =? 263)%nat then right_eye
         else if (i =? 1)%nat then nose
         else Landmark 0 0 0)
      (seq 0 478).

(** One face, no matrix, the jaw open by 0.6. *)
Definition open_jaw : FaceLandmarkerResult :=
  {| face_landmarks :=
       [face_with (Landmark 0.3 0.5 0) (Landmark 0.7 0.5 0) (Landmark 0.5 0.6 (-0.1))];
     face_blendshapes := [[mkCategory "jawOpen" 0.6]];
     facial_transformation_matrixes := [] |}.

(** C9: for a result with a face whose landmarks 33, 263 and 1 exist, and a
    header whose accesses return, the payload's pose is the landmark formula
    when there is no matrix; when there is a matrix the pose is the one
    decomposed from it, so the landmarks are used only without a matrix. *)
Theorem landmark_fallback_pose (E : externals) (result : FaceLandmarkerResult)
    (header : Json.value) (fps_server : PrimFloat.float) (now1 now2 : clock)
    (landmarks : list NormalizedLandmark) (others : list (list NormalizedLandmark))
    (left_eye right_eye nose : NormalizedLandmark) (T ms : Z) :
  face_landmarks result = landmarks :: others ->
  nth_error landmarks 33 = Some left_eye ->
  nth_error landmarks 263 = Some right_eye ->
  nth_error landmarks 1 = Some nose ->
  header_ts E header now1 = Py.ret T ->
  latency E header now2 = Py.ret ms ->
  let vx := x right_eye - x left_eye in
  let vy := y right_eye - y left_eye in
  let vz := z right_eye - z left_eye in
  (facial_transformation_matrixes result = [] ->
   exists p,
     build_payload E (Some result) header fps_server now1 now2 = Py.ret p /\
     pose p = mkPose (Pose.degrees (Pose.atan2 vz vx))
                     (Pose.degrees (Pose.atan2 (z nose) vy))
                     (Pose.degrees (Pose.atan2 vy vx))) /\
  (forall matrix rest yaw pitch roll,
     facial_transformation_matrixes result = matrix :: rest ->
     Pose.extract_pose_from_matrix matrix = Py.ret (yaw, pitch, roll) ->
     exists p,
       build_payload E (Some result) header fps_server now1 now2 = Py.ret p /\
       pose p = mkPose yaw pitch roll).
Proof.
  intros Hface H33 H263 H1 Hts Hlat vx vy vz.
  assert (Hno : no_face (Some result) = false).
  { cbn [no_face]. now rewrite Hface. }
  split.
  - intros Hm.
    exists (face_payload result T
              (Pose.degrees (Pose.atan2 vz vx),
               Pose.degrees (Pose.atan2 (z nose) vy),
               Pose.degrees (Pose.atan2 vy vx)) fps_server ms).
    split; [|reflexivity].
    apply build_payload_cases. exists T. split; [exact Hts|]. rewrite Hno.
    eexists _, _, ms. repeat split; [|exact Hlat].
    unfold pose_of. rewrite Hm, Hface.
    unfold Pose.estimate_pose_from_landmarks, Pose.landmark_at.
    rewrite H33, H263, H1. reflexivity.
  - intros matrix rest yaw pitch roll Hm Hx.
    exists (face_payload result T (yaw, pitch, roll) fps_server ms).
    split; [|reflexivity].
    apply build_payload_cases. exists T. split; [exact Hts|]. rewrite Hno.
    eexists _, _, ms. repeat split; [|exact Hlat].
    unfold pose_of. rewrite Hm. exact Hx.
Qed.

Lemma landmark_fallback_pose_witness :
  exists p,
    build_payload Doubles.lab (Some open_jaw)
      (Json.JDict [("ts", Json.JInt 1000)]) 0%float Doubles.at_1s Doubles.at_1s = Py.ret p /\
    pose p = mkPose (Pose.degrees (Pose.atan2 (0 - 0) (0.7 - 0.3)))
                    (Pose.degrees (Pose.atan2 (-0.1) (0.5 - 0.5)))
                    (Pose.degrees (Pose.atan2 (0.5 - 0.5) (0.7 - 0.3))).
Proof.
  refine (proj1 (@landmark_fallback_pose Doubles.lab open_jaw
                   (Json.JDict [("ts", Json.JInt 1000)]) 0%float Doubles.at_1s Doubles.at_1s
                   (face_with (Landmark 0.3 0.5 0) (Landmark 0.7 0.5 0)
                              (Landmark 0.5 0.6 (-0.1)))
                   [] (Landmark 0.3 0.5 0) (Landmark 0.7 0.5 0)
                   (Landmark 0.5 0.6 (-0.1)) 1000
                   (Z.max 0 (Json.trunc (now_ms Doubles.at_1s) - 1000))
                   eq_refl eq_refl eq_refl eq_refl eq_refl eq_refl) eq_refl).
Defined.

(** A name that no category has gives 0. *)
Lemma lookup_absent_name :
  blendshape_lookup [[mkCategory "jawOpen" 0.6]] "browInnerUp" = 0 /\
  blendshape_lookup [] "jawOpen" = 0 /\
  blendshape_lookup [[mkCategory "jawOpen" 0.6]] "jawOpen" = 0.6.
Proof. repeat split. Qed.

(** The open jaw with the landmarks and no matrix: present, mouth.open 0.6. *)
Example open_jaw_payload :
  exists p,
    build_payload Doubles.lab (Some open_jaw)
      (Json.JDict [("ts", Json.JInt 1000)]) 0%float Doubles.at_1s Doubles.at_1s = Py.ret p /\
    present p = true /\ ts p = 1000%Z /\ open (mouth p) = 0.6.
Proof.
  eexists. split.
  - apply build_payload_cases. exists 1000%Z. split; [reflexivity|].
    cbn [no_face open_jaw face_landmarks List.length Nat.eqb].
    eexists open_jaw, _, _. repeat split.
  - cbn [face_payload present ts mouth open open_jaw face_blendshapes
         blendshape_lookup first_score category_name score].
    cbn. repeat split. unfold py_min. destruct (Rlt_dec 0.6 1); lra.
Qed.

End AssemblerFacts.

(** ** Facts about the connection loop *)

Module LoopFacts.
Import Detection Ext Assembler Loop.
Import PrimFloat.
Local Open Scope string_scope.
Local Open Scope R_scope.

(** A received binary message. *)
Definition receive (raw : list byte) : Py.M message :=
  Py.ret {| type := "websocket.receive"; bytes := Buffer raw |}.

(** The declared length and the header bytes of a buffer, as lines 71-72
    take them. *)
Definition declared_len (raw : list byte) : N :=
  Wire.from_bytes_little (Wire.slice raw 0 4).

Definition header_bytes (raw : list byte) : list byte :=
  Wire.slice raw 4 (4 + declared_len raw).

(** The exception of decoding or parsing the header, if there is one. *)
Definition header_fault (E : externals) (raw : list byte) : option Py.exn :=
  match Wire.decode_utf8 (header_bytes raw) with
  | inl e => Some e
  | inr header_text =>
      match json_loads E header_text with
      | inl e => Some e
      | inr _ => None
      end
  end.

(** The exceptions that the third handler takes: [Exception]s that are
    neither a [WebSocketDisconnect] nor a [RuntimeError]. *)
Definition reported (e : Py.exn) : bool :=
  match Py.exn_class e with
  | Py.WebSocketDisconnect => false
  | c => negb (Py.is_RuntimeError c) && Py.is_Exception c
  end.

(** The exception that [process] or [build_payload] raises, if one does. *)
Definition processing_fault (E : externals) (w : turn) (face_tracker : FaceTracker.t)
    (frame_rgb : ndarray) (header : Json.value) (ts_ms : Z) : option Py.exn :=
  let r := FaceTracker.process face_tracker frame_rgb ts_ms (detect w) (during w) in
  match snd r with
  | inl e => Some e
  | inr result =>
      match build_payload E result header (FaceTracker.fps (fst r))
              (now_184 w) (now_211 w) with
      | inl e => Some e
      | inr _ => None
      end
  end.

(** A pass in which nothing else happens: no callbacks, no faults. *)
Definition quiet : turn :=
  {| now_75 := Doubles.at_0s; now_184 := Doubles.at_0s; now_211 := Doubles.at_0s;
     late := []; detect := None; during := [];
     send_fault := None; error_send_fault := None |}.

Definition engine_raises (e : Py.exn) : turn :=
  {| now_75 := Doubles.at_0s; now_184 := Doubles.at_0s; now_211 := Doubles.at_0s;
     late := []; detect := Some e; during := [];
     send_fault := None; error_send_fault := None |}.

Lemma handle_reported w e :
  reported e = true -> error_send_fault w = None ->
  handle w e = ([ErrorText (Py.exn_str e)], Continue).
Proof.
  unfold reported, handle, send_text. intros Hr Hs. rewrite Hs.
  destruct (Py.exn_class e); try discriminate Hr; reflexivity.
Qed.

Lemma handle_runtime w e :
  Py.is_RuntimeError (Py.exn_class e) = true -> handle w e = ([], Break).
Proof.
  unfold handle. intros Hr.
  destruct (Py.exn_class e); try discriminate Hr; reflexivity.
Qed.

Lemma demultiplex_header_fault E w raw e :
  header_fault E raw = Some e -> demultiplex E w raw = Py.raise e.
Proof.
  unfold header_fault, demultiplex, header_bytes, declared_len.
  destruct (Wire.decode_utf8 _) as [e1|header_text]; cbn [Py.bind].
  - now intros [= ->].
  - destruct (json_loads E header_text) as [e2|header]; [now intros [= ->]|discriminate].
Qed.

Lemma iteration_receive E w t raw :
  iteration E w t (receive raw)
  = match demultiplex E w raw with
    | inl e => (FaceTracker.deliver t (late w), handle w e)
    | inr (header, None, ts_ms) =>
        (FaceTracker.deliver t (late w),
         match send_text (send_fault w) (PayloadText (build_empty_payload ts_ms false)) with
         | inl e => handle w e
         | inr sent => (sent, Continue)
         end)
    | inr (header, Some frame_rgb, ts_ms) =>
        let r := FaceTracker.process (FaceTracker.deliver t (late w)) frame_rgb ts_ms
                   (detect w) (during w) in
        (fst r,
         match snd r with
         | inl e => handle w e
         | inr result =>
             match build_payload E result header (FaceTracker.fps (fst r))
                     (now_184 w) (now_211 w) with
             | inl e => handle w e
             | inr payload =>
                 match send_text (send_fault w) (PayloadText payload) with
                 | inl e => handle w e
                 | inr sent => (sent, Continue)
                 end
             end
         end)
    end.
Proof.
  unfold iteration, body, receive, Py.ret. cbn [type bytes String.eqb Ascii.eqb Bool.eqb].
  destruct (demultiplex E w raw) as [e|[[header [frame_rgb|]] ts_ms]]; cbn [fst snd].
  - reflexivity.
  - destruct (snd (FaceTracker.process _ _ _ _ _)) as [e|result]; cbn [Py.bind];
      [reflexivity|].
    destruct (build_payload _ _ _ _ _ _) as [e|payload]; cbn [Py.bind]; [reflexivity|].
    destruct (send_text _ _); reflexivity.
  - destruct (send_text _ _); reflexivity.
Qed.

Lemma demultiplex_ts E w raw header frame ts_ms :
  demultiplex E w raw = Py.ret (header, frame, ts_ms) ->
  header_ts E header (now_75 w) = Py.ret ts_ms.
Proof.
  unfold demultiplex.
  destruct (Wire.decode_utf8 _) as [e|header_text]; cbn [Py.bind]; [discriminate|].
  destruct (json_loads E header_text) as [e|header']; cbn [Py.bind]; [discriminate|].
  destruct (decode_jpeg E _) as [e|frame']; cbn [Py.bind]; [discriminate|].
  destruct (header_ts E header' (now_75 w)) as [e|ts'] eqn:Hh; cbn [Py.bind];
    [discriminate|].
  intros [= -> _ ->]. exact Hh.
Qed.

(** A buffer with the eleven bytes of the ts document as header and one
    byte, which is no image. *)
Definition no_image : list byte :=
  [x0b; x00; x00; x00] ++ Doubles.ts_1000_bytes ++ [x00].

(** C7: with a header whose [ts] is T, the payload for no result, or for a
    result with no face, has present false, ts T, both eyes 1, mouth and
    brow 0; so has the payload built and sent for a frame that does not
    decode. *)
Theorem absent_detection_payload (E : externals) (d : list (string * Json.value))
    (T : Z) (result : option FaceLandmarkerResult) (fps_server : PrimFloat.float)
    (now1 now2 : clock) :
  Json.lookup "ts" d = Some (Json.JInt T) ->
  AssemblerFacts.no_face result = true ->
  build_payload E result (Json.JDict d) fps_server now1 now2
  = Py.ret (mkPayload T false (mkPose 0 0 0) (mkEye 1 1) (mkMouth 0 0) (mkBrow 0 0)
                      (mkDebug fps_server 0)) /\
  build_empty_payload T false
  = mkPayload T false (mkPose 0 0 0) (mkEye 1 1) (mkMouth 0 0) (mkBrow 0 0)
              (mkDebug 0%float 0) /\
  (forall w t raw ts_ms,
     demultiplex E w raw = Py.ret (Json.JDict d, None, ts_ms) ->
     send_fault w = None ->
     iteration E w t (receive raw)
     = (FaceTracker.deliver t (late w),
        ([PayloadText (mkPayload T false (mkPose 0 0 0) (mkEye 1 1) (mkMouth 0 0)
                                 (mkBrow 0 0) (mkDebug 0%float 0))],
         Continue))).
Proof.
  intros Hts Hno. split; [|split; [reflexivity|]].
  - apply AssemblerFacts.build_payload_cases. exists T.
    split; [now apply AssemblerFacts.header_ts_int|].
    rewrite Hno. reflexivity.
  - intros w t raw ts_ms Hd Hs.
    pose proof (demultiplex_ts E w raw Hd) as Hh.
    rewrite (AssemblerFacts.header_ts_int E d (now_75 w) Hts) in Hh.
    injection Hh as <-.
    rewrite iteration_receive, Hd. cbn [Py.ret]. rewrite Hs. reflexivity.
Qed.

Lemma absent_detection_payload_witness :
  build_payload Doubles.lab (Some (mkResult [] [] []))
    (Json.JDict [("ts", Json.JInt 1000)]) 10%float Doubles.at_1s Doubles.at_1s
  = Py.ret (mkPayload 1000 false (mkPose 0 0 0) (mkEye 1 1) (mkMouth 0 0) (mkBrow 0 0)
                      (mkDebug 10%float 0)) /\
  iteration Doubles.lab quiet FaceTracker.init (receive no_image)
  = (FaceTracker.init,
     ([PayloadText (mkPayload 1000 false (mkPose 0 0 0) (mkEye 1 1) (mkMouth 0 0)
                              (mkBrow 0 0) (mkDebug 0%float 0))],
      Continue)).
Proof.
  destruct (@absent_detection_payload Doubles.lab [("ts", Json.JInt 1000)] 1000%Z
              (Some (mkResult [] [] [])) 10%float Doubles.at_1s Doubles.at_1s eq_refl eq_refl)
    as (Hbuilt & _ & Hsent).
  split; [exact Hbuilt|].
  exact (Hsent quiet FaceTracker.init no_image 1000%Z eq_refl eq_refl).
Defined.

(** A buffer that declares a header of one byte, which is FF. *)
Definition bad_utf8 : list byte := [x01; x00; x00; x00; xff].

(** C2 as stated fails: for a buffer whose header bytes are not UTF-8 the
    pass sends the error text, no payload with present false; the loop goes
    on. *)
Lemma bad_utf8_gets_error_text :
  Wire.utf8_valid (header_bytes bad_utf8) = false /\
  iteration Doubles.lab quiet FaceTracker.init (receive bad_utf8)
  = (FaceTracker.init, ([ErrorText "'utf-8' codec can't decode bytes"], Continue)).
Proof. split; reflexivity. Qed.

(** A slice is what is there: with a declared length that reaches the end
    of the buffer or beyond, the header is everything after the prefix and
    no image byte is left. *)
Lemma slices_beyond_end (raw : list byte) :
  (N.of_nat (List.length raw) <= 4 + declared_len raw)%N ->
  header_bytes raw = skipn 4 raw /\
  Wire.slice_from raw (4 + declared_len raw) = [].
Proof.
  intros H. unfold header_bytes, Wire.slice, Wire.slice_from.
  set (n := N.of_nat (List.length raw)) in *.
  rewrite (N.min_r _ n) by exact H.
  split.
  - destruct (N.le_ge_cases 4 n) as [H4|H4].
    + rewrite (N.min_l 4 n) by exact H4.
      change (N.to_nat 4) with 4%nat.
      apply firstn_all2. rewrite length_skipn. unfold n. lia.
    + rewrite (N.min_r 4 n) by exact H4. rewrite N.sub_diag. cbn [N.to_nat firstn].
      symmetry. apply skipn_all2. unfold n in H4. lia.
  - apply skipn_all2. unfold n. lia.
Qed.

(** C2 amended: when the header bytes are not UTF-8, or the JSON decoder
    rejects their text with an exception of the third handler's kind, the
    pass sends the text of the exception as error and the loop goes on; the
    lengths are not checked: with a short buffer or a declared length beyond
    the end the header is what follows the prefix. *)
Theorem malformed_header_reported (E : externals) (w : turn) (t : FaceTracker.t)
    (raw : list byte) (e : Py.exn) :
  (Wire.utf8_valid (header_bytes raw) = false /\ e = Wire.decode_error) \/
  (exists header_text,
     Wire.decode_utf8 (header_bytes raw) = Py.ret header_text /\
     json_loads E header_text = Py.raise e /\ reported e = true) ->
  error_send_fault w = None ->
  iteration E w t (receive raw)
  = (FaceTracker.deliver t (late w), ([ErrorText (Py.exn_str e)], Continue)) /\
  ((N.of_nat (List.length raw) <= 4 + declared_len raw)%N ->
   header_bytes raw = skipn 4 raw /\
   Wire.slice_from raw (4 + declared_len raw) = []).
Proof.
  intros Hbad Hs. split; [|apply slices_beyond_end].
  assert (Hf : header_fault E raw = Some e /\ reported e = true).
  { unfold header_fault.
    destruct Hbad as [[Hu ->]|(header_text & Hd & Hj & Hr)].
    - unfold Wire.decode_utf8. rewrite Hu. split; reflexivity.
    - rewrite Hd. cbn [Py.ret]. rewrite Hj. split; [reflexivity|exact Hr]. }
  destruct Hf as [Hf Hr].
  rewrite iteration_receive, (demultiplex_header_fault E w raw Hf).
  cbn [Py.raise]. now rewrite (handle_reported w e Hr Hs).
Qed.

Lemma malformed_header_reported_witness :
  iteration Doubles.lab quiet FaceTracker.init (receive [])
  = (FaceTracker.init,
     ([ErrorText "Expecting value: line 1 column 1 (char 0)"], Continue)) /\
  ((N.of_nat (@List.length byte []) <= 4 + declared_len [])%N ->
   header_bytes [] = skipn 4 [] /\
   @Wire.slice_from byte [] (4 + declared_len []) = []).
Proof.
  apply (@malformed_header_reported Doubles.lab quiet FaceTracker.init []
           (Py.Exn Py.JSONDecodeError "Expecting value: line 1 column 1 (char 0)")).
  - right. exists EmptyString. repeat split.
  - reflexivity.
Defined.

(** A buffer with the header "{}" and two bytes of image, FF D8. *)
Definition small_frame : list byte := [x02; x00; x00; x00; x7b; x7d; xff; xd8].

Definition graph_error : Py.exn := Py.Exn Py.RuntimeError "Graph has errors".

Definition bad_timestamp : Py.exn :=
  Py.Exn Py.ValueError "Input timestamp must be monotonically increasing.".

(** C3 as stated fails: when the engine raises a [RuntimeError] the pass
    sends nothing and leaves the loop; a message after it is not handled. *)
Lemma runtime_error_leaves_loop :
  demultiplex Doubles.lab (engine_raises graph_error) small_frame
  = Py.ret (Json.JDict [], Some Doubles.one_pixel, Json.trunc (now_ms Doubles.at_0s)) /\
  iteration Doubles.lab (engine_raises graph_error) FaceTracker.init (receive small_frame)
  = (FaceTracker.create_future FaceTracker.init, ([], Break)) /\
  ws_loop Doubles.lab FaceTracker.init
    [(engine_raises graph_error, receive small_frame); (quiet, receive small_frame)]
  = (FaceTracker.create_future FaceTracker.init, [], None).
Proof. repeat split. Qed.

(** C3 amended: an exception that [process] or [build_payload] raises, of
    the third handler's kind, is sent as error text and the loop goes on
    with the next message; a [RuntimeError] (or one of its subclasses) ends
    the loop and nothing is sent. *)
Theorem processing_fault_handling (E : externals) (w : turn) (t : FaceTracker.t)
    (raw : list byte) (header : Json.value) (frame_rgb : ndarray) (ts_ms : Z)
    (e : Py.exn) :
  demultiplex E w raw = Py.ret (header, Some frame_rgb, ts_ms) ->
  processing_fault E w (FaceTracker.deliver t (late w)) frame_rgb header ts_ms = Some e ->
  let t' := fst (FaceTracker.process (FaceTracker.deliver t (late w)) frame_rgb ts_ms
                   (detect w) (during w)) in
  (reported e = true -> error_send_fault w = None ->
   iteration E w t (receive raw) = (t', ([ErrorText (Py.exn_str e)], Continue)) /\
   forall rest,
     ws_loop E t ((w, receive raw) :: rest)
     = (fst (fst (ws_loop E t' rest)),
        ErrorText (Py.exn_str e) :: snd (fst (ws_loop E t' rest)),
        snd (ws_loop E t' rest))) /\
  (Py.is_RuntimeError (Py.exn_class e) = true ->
   iteration E w t (receive raw) = (t', ([], Break)) /\
   forall rest, ws_loop E t ((w, receive raw) :: rest) = (t', [], None)).
Proof.
  intros Hd Hf t'.
  assert (Hit : iteration E w t (receive raw) = (t', handle w e)).
  { rewrite iteration_receive, Hd. cbn [Py.ret]. cbv zeta. fold t'.
    unfold processing_fault in Hf. cbv zeta in Hf.
    destruct (snd (FaceTracker.process _ _ _ _ _)) as [e1|result].
    - now injection Hf as ->.
    - destruct (build_payload _ _ _ _ _ _) as [e2|payload]; [|discriminate].
      now injection Hf as ->. }
  split.
  - intros Hr Hs. rewrite (handle_reported w e Hr Hs) in Hit.
    split; [exact Hit|]. intros rest. cbn [ws_loop]. rewrite Hit. cbn [fst snd].
    destruct (ws_loop E t' rest) as [[final sent] exc]. reflexivity.
  - intros Hr. rewrite (handle_runtime w e Hr) in Hit.
    split; [exact Hit|]. intros rest. cbn [ws_loop]. rewrite Hit. reflexivity.
Qed.

Lemma processing_fault_handling_witness :
  iteration Doubles.lab (engine_raises bad_timestamp) FaceTracker.init (receive small_frame)
  = (FaceTracker.create_future FaceTracker.init,
     ([ErrorText "Input timestamp must be monotonically increasing."], Continue)) /\
  ws_loop Doubles.lab FaceTracker.init
    [(engine_raises bad_timestamp, receive small_frame); (quiet, receive [])]
  = (FaceTracker.create_future FaceTracker.init,
     [ErrorText "Input timestamp must be monotonically increasing.";
      ErrorText "Expecting value: line 1 column 1 (char 0)"],
     None).
Proof.
  destruct (proj1 (@processing_fault_handling Doubles.lab (engine_raises bad_timestamp)
                     FaceTracker.init small_frame (Json.JDict []) Doubles.one_pixel
                     (Json.trunc (now_ms Doubles.at_0s)) bad_timestamp eq_refl eq_refl)
                  eq_refl eq_refl) as [Hit Hloop].
  split; [exact Hit|].
  rewrite Hloop. reflexivity.
Defined.

End LoopFacts.

(** ** More about the pose: ranges, shapes and the round trip *)

Module PoseProperties.
Import Detection Pose.
Local Open Scope R_scope.

Lemma atan_nonpos (u : R) : u <= 0 -> atan u <= 0.
Proof.
  intros [Hu| ->]; [|rewrite atan_0; lra].
  pose proof (atan_increasing u 0 Hu) as H. rewrite atan_0 in H. lra.
Qed.

Lemma atan_pos (u : R) : 0 < u -> 0 < atan u.
Proof. intros Hu. pose proof (atan_increasing 0 u Hu) as H. now rewrite atan_0 in H. Qed.

Lemma div_neg_nonneg (y x : R) : x < 0 -> 0 <= y -> y / x <= 0.
Proof.
  intros Hx Hy. unfold Rdiv.
  assert (Hi : / x < 0) by now apply Rinv_lt_0_compat.
  nra.
Qed.

Lemma div_neg_neg (y x : R) : x < 0 -> y < 0 -> 0 < y / x.
Proof.
  intros Hx Hy. unfold Rdiv.
  assert (Hi : / x < 0) by now apply Rinv_lt_0_compat.
  nra.
Qed.

(** [math.atan2] stays in (-pi, pi]. *)
Lemma atan2_range (y x : R) : - PI < atan2 y x <= PI.
Proof.
  pose proof PI_RGT_0 as Hpi. unfold atan2.
  destruct (Rlt_dec 0 x) as [Hx|Hx].
  - pose proof (atan_bound (y / x)). lra.
  - destruct (Rlt_dec x 0) as [Hx'|Hx'].
    + destruct (Rle_dec 0 y) as [Hy|Hy].
      * pose proof (atan_bound (y / x)).
        pose proof (atan_nonpos (div_neg_nonneg Hx' Hy)). lra.
      * pose proof (atan_bound (y / x)).
        assert (Hy' : y < 0) by lra.
        pose proof (atan_pos (div_neg_neg Hx' Hy')). lra.
    + destruct (Rlt_dec 0 y); [lra|]. destruct (Rlt_dec y 0); lra.
Qed.

Lemma degrees_le (a b : R) : a <= b -> degrees a <= degrees b.
Proof.
  intros H. unfold degrees. apply Rmult_le_compat_r; [|exact H].
  pose proof PI_RGT_0. apply Rlt_le, Rdiv_lt_0_compat; lra.
Qed.

Lemma degrees_lt (a b : R) : a < b -> degrees a < degrees b.
Proof.
  intros H. unfold degrees. apply Rmult_lt_compat_r; [|exact H].
  pose proof PI_RGT_0. apply Rdiv_lt_0_compat; lra.
Qed.

Lemma degrees_PI : degrees PI = 180.
Proof. unfold degrees. field. apply PI_neq0. Qed.

Lemma degrees_opp (a : R) : degrees (- a) = - degrees a.
Proof. unfold degrees. ring. Qed.

Lemma degrees_atan2_range (y x : R) : -180 < degrees (atan2 y x) <= 180.
Proof.
  destruct (atan2_range y x) as [Hl Hu].
  apply degrees_lt in Hl. apply degrees_le in Hu.
  rewrite degrees_opp, degrees_PI in Hl. rewrite degrees_PI in Hu. lra.
Qed.

Lemma degrees_atan2_64_range (y x : PrimFloat.float) :
  -180 <= degrees (atan2_64 y x) <= 180.
Proof.
  assert (H : - PI <= atan2_64 y x <= PI).
  { pose proof PI_RGT_0 as Hpi. unfold atan2_64.
    pose proof (atan2_range (Float64.to_R y) (Float64.to_R x)).
    repeat match goal with
           | |- context [if ?b then _ else _] => destruct b
           end; lra. }
  destruct H as [Hl Hu].
  apply degrees_le in Hl. apply degrees_le in Hu.
  rewrite degrees_opp, degrees_PI in Hl. rewrite degrees_PI in Hu. lra.
Qed.

(** Whatever the 16 entries are, the angles decomposed from a matrix are
    within [-180, 180]. *)
Lemma matrix_pose_ranges (matrix : list Float64.finite) (yaw pitch roll : R) :
  extract_pose_from_matrix matrix = Py.ret (yaw, pitch, roll) ->
  -180 <= yaw <= 180 /\ -180 <= pitch <= 180 /\ -180 <= roll <= 180.
Proof.
  unfold extract_pose_from_matrix.
  destruct (reshape_4x4 matrix) as [e|r]; cbn [Py.bind Py.ret]; [discriminate|].
  destruct (negb _); intros [= <- <- <-];
    repeat split; try apply degrees_atan2_64_range; lra.
Qed.

Lemma landmark_pose_ranges (landmarks : list NormalizedLandmark) (yaw pitch roll : R) :
  estimate_pose_from_landmarks landmarks = Py.ret (yaw, pitch, roll) ->
  -180 <= yaw <= 180 /\ -180 <= pitch <= 180 /\ -180 <= roll <= 180.
Proof.
  unfold estimate_pose_from_landmarks.
  destruct (landmark_at landmarks 33) as [e|l]; cbn [Py.bind]; [discriminate|].
  destruct (landmark_at landmarks 263) as [e|r]; cbn [Py.bind]; [discriminate|].
  destruct (landmark_at landmarks 1) as [e|n]; cbn [Py.bind Py.ret]; [discriminate|].
  intros [= <- <- <-].
  repeat split;
    match goal with
    | |- context [degrees (atan2 ?y ?x)] => pose proof (degrees_atan2_range y x); lra
    end.
Qed.

Lemma landmark_at_some (landmarks : list NormalizedLandmark) (i : nat) :
  (i < List.length landmarks)%nat ->
  exists p, landmark_at landmarks i = Py.ret p.
Proof.
  intros Hi. unfold landmark_at.
  destruct (nth_error landmarks i) as [p|] eqn:E; [now exists p|].
  apply nth_error_None in E. lia.
Qed.

Lemma landmark_at_none (landmarks : list NormalizedLandmark) (i : nat) :
  (List.length landmarks <= i)%nat ->
  landmark_at landmarks i = Py.raise (Py.Exn Py.IndexError "list index out of range").
Proof.
  intros Hi. unfold landmark_at.
  now rewrite (proj2 (nth_error_None landmarks i) Hi).
Qed.

(** X2: the estimate from landmarks returns exactly when the face has at
    least 264 landmarks, and then its three angles are within [-180, 180],
    both ends included; with fewer it raises IndexError. *)
Theorem landmark_pose_bounds (landmarks : list NormalizedLandmark) :
  ((264 <= List.length landmarks)%nat ->
   exists yaw pitch roll,
     estimate_pose_from_landmarks landmarks = Py.ret (yaw, pitch, roll) /\
     -180 <= yaw <= 180 /\ -180 <= pitch <= 180 /\ -180 <= roll <= 180) /\
  ((List.length landmarks < 264)%nat ->
   estimate_pose_from_landmarks landmarks
   = Py.raise (Py.Exn Py.IndexError "list index out of range")).
Proof.
  split; intros Hlen.
  - unfold estimate_pose_from_landmarks.
    destruct (@landmark_at_some landmarks 33) as [l El]; [lia|].
    destruct (@landmark_at_some landmarks 263) as [r Er]; [lia|].
    destruct (@landmark_at_some landmarks 1) as [n En]; [lia|].
    rewrite El, Er, En. cbn [Py.bind Py.ret].
    eexists _, _, _. split; [reflexivity|].
    repeat split;
      match goal with
      | |- context [degrees (atan2 ?y ?x)] => pose proof (degrees_atan2_range y x); lra
      end.
  - unfold estimate_pose_from_landmarks.
    destruct (le_lt_dec (List.length landmarks) 33) as [H33|H33].
    + now rewrite (landmark_at_none landmarks H33).
    + destruct (@landmark_at_some landmarks 33) as [l El]; [lia|].
      rewrite El. cbn [Py.bind Py.ret].
      rewrite (@landmark_at_none landmarks 263) by lia. reflexivity.
Qed.

End PoseProperties.

(** ** More about the payload *)

Module AssemblerProperties.
Import Detection Ext Assembler.
Import PrimFloat.
Local Open Scope string_scope.
Local Open Scope R_scope.

Lemma latency_nonneg E header now ms :
  latency E header now = Py.ret ms -> (0 <= ms)%Z.
Proof.
  unfold latency.
  destruct (Json.get header "ts" Json.JNone) as [e|v]; cbn [Py.bind]; [discriminate|].
  destruct (Json.truthy v).
  - destruct (Json.getitem header "ts") as [e|raw]; cbn [Py.bind]; [discriminate|].
    destruct (Json.int (int_of_str E) raw) as [e|sent_ms]; cbn [Py.bind Py.ret];
      [discriminate|].
    intros [= <-]. apply Z.le_max_l.
  - intros [= <-]. lia.
Qed.

Lemma header_ts_missing E d now :
  Json.lookup "ts" d = None ->
  header_ts E (Json.JDict d) now = Py.ret (Json.trunc (now_ms now)) /\
  latency E (Json.JDict d) now = Py.ret 0%Z.
Proof.
  intros H. unfold header_ts, latency. cbn [Json.get Py.bind Py.ret].
  rewrite H. split; reflexivity.
Qed.

(** The clock at 0.29 s.  The product by 1000 is the binary64 one, 290.0,
    and [int] gives 290; the product of the real numbers is below 290. *)
Definition at_290ms : clock := Clock 0.29 eq_refl.

Example clock_product_rounds :
  Json.trunc (now_ms at_290ms) = 290%Z /\
  Float64.to_R (seconds at_290ms) * 1000 < 290.
Proof.
  split.
  - unfold now_ms. change (seconds at_290ms * 1000)%float with 290%float.
    rewrite (@PoseFacts.to_R_finite 290%float false 5101733952880640 (-44) eq_refl).
    replace (IZR (Z.pos 5101733952880640) * powerRZ 2 (-44)) with 290.
    + unfold Json.trunc. destruct (Rle_dec 0 290) as [_|H]; [|lra].
      symmetry. apply Int_part_spec. lra.
    + cbn [powerRZ]. change (Pos.to_nat 44) with 44%nat. cbn [pow]. lra.
  - change (seconds at_290ms) with 0.29%float.
    rewrite (@PoseFacts.to_R_finite 0.29%float false 5224175567749775 (-54) eq_refl).
    cbn [powerRZ]. change (Pos.to_nat 54) with 54%nat. cbn [pow]. lra.
Qed.

Lemma pose_of_ranges result yaw pitch roll :
  pose_of result = Py.ret (yaw, pitch, roll) ->
  -180 <= yaw <= 180 /\ -180 <= pitch <= 180 /\ -180 <= roll <= 180.
Proof.
  unfold pose_of.
  destruct (facial_transformation_matrixes result) as [|matrix rest].
  - destruct (face_landmarks result) as [|landmarks others]; [discriminate|].
    intros H. apply PoseProperties.landmark_pose_ranges in H. lra.
  - intros H. apply PoseProperties.matrix_pose_ranges in H. lra.
Qed.

(** X3: the three angles of every payload that is built are within
    [-180, 180] degrees, whether they come from the matrix, from the
    landmarks, or are the zeros of the payload without a face. *)
Theorem payload_pose_in_range (E : externals) (result : option FaceLandmarkerResult)
    (header : Json.value) (fps_server : float) (now1 now2 : clock) (p : payload) :
  build_payload E result header fps_server now1 now2 = Py.ret p ->
  -180 <= yawDeg (pose p) <= 180 /\
  -180 <= pitchDeg (pose p) <= 180 /\
  -180 <= rollDeg (pose p) <= 180.
Proof.
  intros H. apply AssemblerFacts.build_payload_cases in H.
  destruct H as (ts_ms & _ & H).
  destruct (AssemblerFacts.no_face result).
  - subst p. cbn. lra.
  - destruct H as (r & [[yaw pitch] roll] & ms & _ & Hp & _ & ->).
    cbn [AssemblerFacts.face_payload pose yawDeg pitchDeg rollDeg].
    now apply (pose_of_ranges r).
Qed.

Lemma payload_pose_in_range_witness :
  exists p,
    build_payload Doubles.lab (Some AssemblerFacts.open_jaw)
      (Json.JDict [("ts", Json.JInt 1000)]) 0%float Doubles.at_1s Doubles.at_1s = Py.ret p /\
    -180 <= yawDeg (pose p) <= 180 /\
    -180 <= pitchDeg (pose p) <= 180 /\
    -180 <= rollDeg (pose p) <= 180.
Proof.
  destruct AssemblerFacts.open_jaw_payload as (p & Hp & _).
  exists p. split; [exact Hp|]. exact (payload_pose_in_range _ _ _ _ _ _ Hp).
Defined.

Lemma payload_server_fps E result header fps_server now1 now2 p :
  build_payload E result header fps_server now1 now2 = Py.ret p ->
  serverFps (debug p) = fps_server.
Proof.
  intros H. apply AssemblerFacts.build_payload_cases in H.
  destruct H as (ts_ms & _ & H).
  destruct (AssemblerFacts.no_face result).
  - now subst p.
  - destruct H as (r & [[yaw pitch] roll] & ms & _ & _ & _ & ->). reflexivity.
Qed.

(** X4: every payload that is built carries the frame rate it was given,
    a latency that is not negative, and is marked present exactly when the
    result has a face. *)
Theorem payload_debug_and_presence (E : externals)
    (result : option FaceLandmarkerResult) (header : Json.value)
    (fps_server : float) (now1 now2 : clock) (p : payload) :
  build_payload E result header fps_server now1 now2 = Py.ret p ->
  serverFps (debug p) = fps_server /\
  (0 <= latencyMs (debug p))%Z /\
  present p = negb (AssemblerFacts.no_face result).
Proof.
  intros H. apply AssemblerFacts.build_payload_cases in H.
  destruct H as (ts_ms & _ & H).
  destruct (AssemblerFacts.no_face result).
  - subst p. cbn. repeat split. lia.
  - destruct H as (r & [[yaw pitch] roll] & ms & _ & _ & Hl & ->).
    cbn [AssemblerFacts.face_payload debug serverFps latencyMs present negb].
    repeat split. exact (latency_nonneg E header now2 Hl).
Qed.

Lemma payload_debug_and_presence_witness :
  exists p,
    build_payload Doubles.lab (Some AssemblerFacts.open_jaw)
      (Json.JDict [("ts", Json.JInt 1000)]) 0%float Doubles.at_1s Doubles.at_1s = Py.ret p /\
    serverFps (debug p) = 0%float /\
    (0 <= latencyMs (debug p))%Z /\
    present p = true.
Proof.
  destruct AssemblerFacts.open_jaw_payload as (p & Hp & _).
  exists p. split; [exact Hp|]. exact (payload_debug_and_presence _ _ _ _ _ _ Hp).
Defined.

(** X5: how the header's ts reaches the payload.  Without the key, ts is
    the server's clock at line 184, its product by 1000 taken in binary64
    and then cut to an int, and the latency is 0.  With an int T, ts is T,
    and the latency is max(0, clock at line 211 - T), the clock converted
    the same way, only for a result with a face and T other than 0: a ts of
    0 counts as absent, and the payload without a face keeps latency 0. *)
Theorem payload_ts_and_latency (E : externals) (result : option FaceLandmarkerResult)
    (d : list (string * Json.value)) (fps_server : float) (now1 now2 : clock)
    (p : payload) :
  build_payload E result (Json.JDict d) fps_server now1 now2 = Py.ret p ->
  (Json.lookup "ts" d = None ->
   ts p = Json.trunc (now_ms now1) /\ latencyMs (debug p) = 0%Z) /\
  (forall T, Json.lookup "ts" d = Some (Json.JInt T) ->
   ts p = T /\
   latencyMs (debug p)
   = if AssemblerFacts.no_face result || (T =? 0)%Z then 0%Z
     else Z.max 0 (Json.trunc (now_ms now2) - T)).
Proof.
  intros H. apply AssemblerFacts.build_payload_cases in H.
  destruct H as (ts_ms & Hts & H). split.
  - intros Hd. destruct (header_ts_missing E d now1 Hd) as [Ht _].
    destruct (header_ts_missing E d now2 Hd) as [_ Hl].
    rewrite Ht in Hts. injection Hts as <-.
    destruct (AssemblerFacts.no_face result).
    + subst p. split; reflexivity.
    + destruct H as (r & [[yaw pitch] roll] & ms & _ & _ & Hl' & ->).
      rewrite Hl in Hl'. injection Hl' as <-. split; reflexivity.
  - intros T Hd.
    rewrite (AssemblerFacts.header_ts_int E d now1 Hd) in Hts. injection Hts as <-.
    destruct (AssemblerFacts.no_face result); cbn [orb].
    + subst p. split; reflexivity.
    + destruct H as (r & [[yaw pitch] roll] & ms & _ & _ & Hl' & ->).
      rewrite (AssemblerFacts.latency_int E d now2 Hd) in Hl'. injection Hl' as <-.
      split; reflexivity.
Qed.

Lemma payload_ts_and_latency_witness :
  exists p,
    build_payload Doubles.lab (Some AssemblerFacts.open_jaw)
      (Json.JDict [("ts", Json.JInt 1000)]) 0%float Doubles.at_1s Doubles.at_1s = Py.ret p /\
    ts p = 1000%Z /\
    latencyMs (debug p) = Z.max 0 (Json.trunc (now_ms Doubles.at_1s) - 1000).
Proof.
  destruct AssemblerFacts.open_jaw_payload as (p & Hp & _).
  exists p. split; [exact Hp|].
  exact (proj2 (payload_ts_and_latency _ _ _ _ _ _ Hp) 1000%Z eq_refl).
Defined.

Lemma first_score_skip pre entry post name :
  (forall e, In e pre -> category_name e <> name) ->
  category_name entry = name ->
  first_score (pre ++ entry :: post) name = score entry.
Proof.
  intros Hpre Hname. induction pre as [|a pre IH]; cbn [app first_score].
  - rewrite Hname, String.eqb_refl. reflexivity.
  - destruct (String.eqb_spec (category_name a) name) as [E|_].
    + exfalso. apply (Hpre a); [now left|exact E].
    + apply IH. intros e He. apply Hpre. now right.
Qed.

Lemma first_score_absent entries name :
  (forall e, In e entries -> category_name e <> name) ->
  first_score entries name = 0.
Proof.
  intros H. induction entries as [|a entries IH]; cbn [first_score]; [reflexivity|].
  destruct (String.eqb_spec (category_name a) name) as [E|_].
  - exfalso. apply (H a); [now left|exact E].
  - apply IH. intros e He. apply H. now right.
Qed.

(** X6: the lookup reads the first face only and takes the first category
    of that name, whatever follows it; a name that no category of the first
    face has gives 0, also when later faces have it. *)
Theorem lookup_first_match (pre post : list Category) (entry : Category)
    (others : list (list Category)) (name : string) :
  (forall e, In e pre -> category_name e <> name) ->
  (category_name entry = name ->
   blendshape_lookup ((pre ++ entry :: post)%list :: others) name = score entry) /\
  blendshape_lookup (pre :: others) name = 0.
Proof.
  intros Hpre. split.
  - intros Hname. cbn [blendshape_lookup]. now apply first_score_skip.
  - cbn [blendshape_lookup]. now apply first_score_absent.
Qed.

Lemma lookup_first_match_witness :
  blendshape_lookup
    (([mkCategory "browInnerUp" 0.2] ++ mkCategory "jawOpen" 0.6
        :: [mkCategory "jawOpen" 0.9])%list :: [[mkCategory "jawOpen" 1]]) "jawOpen"
  = 0.6 /\
  blendshape_lookup ([mkCategory "browInnerUp" 0.2] :: [[mkCategory "jawOpen" 1]])
    "jawOpen" = 0.
Proof.
  destruct (@lookup_first_match [mkCategory "browInnerUp" 0.2]
              [mkCategory "jawOpen" 0.9] (mkCategory "jawOpen" 0.6)
              [[mkCategory "jawOpen" 1]] "jawOpen") as [Hfirst Habsent].
  - intros e [<-|[]]. cbn. discriminate.
  - split; [exact (Hfirst eq_refl)|exact Habsent].
Defined.

End AssemblerProperties.

(** ** More about the tracker *)

Module FaceTrackerProperties.
Import Detection FaceTracker FaceTrackerFacts.

Lemma deliver_latest self cbs r ts :
  _latest (deliver self (cbs ++ [(r, ts)])) = Some r /\
  _latest_ts (deliver self (cbs ++ [(r, ts)])) = ts.
Proof.
  unfold deliver. rewrite fold_left_app. cbn. split; reflexivity.
Qed.

Lemma process_future_done self frame ts during :
  exists f, _future (fst (process self frame ts None during)) = Some f /\ done f = true.
Proof.
  unfold process.
  destruct (_future (deliver (create_future self) during)) as [[|[r t0]|]|] eqn:Hf;
    cbn [fst _future with_hist cancel_future].
  - exists Cancelled. split; reflexivity.
  - exists (Finished (r, t0)). split; [exact Hf|reflexivity].
  - exists Cancelled. split; reflexivity.
  - exists Cancelled. split; reflexivity.
Qed.

(** The history after a call: one more entry when the engine took the
    frame and a callback arrived during the wait, the same otherwise. *)
Lemma process_hist self frame ts detect during :
  _fps_hist (fst (process self frame ts detect during))
  = match detect, during with
    | None, (_, done_ts) :: _ => record_completion (_fps_hist self) done_ts
    | _, _ => _fps_hist self
    end.
Proof.
  destruct detect as [e|]; [reflexivity|].
  destruct during as [|[result done_ts] rest]; [reflexivity|].
  unfold process.
  rewrite (@deliver_pending (create_future self) (result, done_ts) rest) by reflexivity.
  hist_simpl. reflexivity.
Qed.

Lemma process_result self frame ts result done_ts (rest : list completion) :
  snd (process self frame ts None (@cons completion (result, done_ts) rest))
  = Py.ret (Some result).
Proof.
  unfold process.
  now rewrite (@deliver_pending (create_future self) (result, done_ts) rest).
Qed.

Lemma record_completion_length h ts :
  (List.length h <= 30)%nat -> (List.length (record_completion h ts) <= 30)%nat.
Proof.
  intros H. unfold record_completion.
  destruct (Z.ltb_spec 30 (Z.of_nat (List.length (h ++ [ts])))) as [Hl|Hl].
  - destruct h as [|a h]; cbn [app tl] in *; [simpl; lia|].
    rewrite length_app. cbn [List.length] in *. lia.
  - lia.
Qed.

(** X7: when the engine takes the frame, [process] returns absent exactly
    when no callback arrives during the wait; otherwise it returns the
    result of the first callback that arrives, whatever arrives after it,
    and the history grows by that callback's timestamp. *)
Theorem process_returns_first_callback (self : t) (frame : Ext.ndarray) (ts : Z)
    (during : list completion) :
  snd (process self frame ts None during)
  = Py.ret (match during with [] => None | (result, _) :: _ => Some result end) /\
  _fps_hist (fst (process self frame ts None during))
  = match during with
    | [] => _fps_hist self
    | (_, done_ts) :: _ => record_completion (_fps_hist self) done_ts
    end.
Proof.
  split.
  - destruct during as [|[result done_ts] rest]; [reflexivity|].
    apply process_result.
  - rewrite process_hist. destruct during as [|[result done_ts] rest]; reflexivity.
Qed.

(** X8: after a call that returned, callbacks that arrive before the next
    call complete nothing and leave the history alone, however many they
    are; they only replace the latest result and its timestamp. *)
Theorem idle_callbacks_only_update_latest (self : t) (frame : Ext.ndarray) (ts : Z)
    (during early : list completion) (result : FaceLandmarkerResult) (last_ts : Z) :
  let idle := fst (process self frame ts None during) in
  let after := deliver idle (early ++ [(result, last_ts)]) in
  _future after = _future idle /\
  _fps_hist after = _fps_hist idle /\
  _latest after = Some result /\
  _latest_ts after = last_ts.
Proof.
  intros idle after.
  destruct (process_future_done self frame ts during) as (f & Hf & Hd).
  fold idle in Hf. unfold after.
  split; [rewrite Hf; now apply deliver_done|].
  split; [apply deliver_hist|].
  apply deliver_latest.
Qed.

(** X9: a call starts from a fresh future: what it returns and the history
    it leaves depend on the history before it only, not on the future or
    the latest result that earlier calls and callbacks left behind. *)
Theorem process_ignores_old_slot (s1 s2 : t) (frame : Ext.ndarray) (ts : Z)
    (detect : option Py.exn) (during : list completion) :
  _fps_hist s1 = _fps_hist s2 ->
  snd (process s1 frame ts detect during) = snd (process s2 frame ts detect during) /\
  _fps_hist (fst (process s1 frame ts detect during))
  = _fps_hist (fst (process s2 frame ts detect during)) /\
  _future (fst (process s1 frame ts detect during))
  = _future (fst (process s2 frame ts detect during)).
Proof.
  intros Hh. destruct detect as [e|].
  - unfold process. cbn. repeat split. exact Hh.
  - destruct during as [|c rest].
    + unfold process. cbn. repeat split. exact Hh.
    + unfold process.
      rewrite (@deliver_pending (create_future s1) c rest) by reflexivity.
      rewrite (@deliver_pending (create_future s2) c rest) by reflexivity.
      destruct c as [r t0]. hist_simpl. rewrite Hh.
      rewrite !(@deliver_pending _ (r, t0) rest) by reflexivity.
      repeat split.
Qed.

Lemma process_ignores_old_slot_witness :
  let stale := cancel_future (_on_result init empty_result 5) in
  snd (process init [] 7 None [(empty_result, 7%Z)])
  = snd (process stale [] 7 None [(empty_result, 7%Z)]) /\
  _fps_hist (fst (process init [] 7 None [(empty_result, 7%Z)]))
  = _fps_hist (fst (process stale [] 7 None [(empty_result, 7%Z)])) /\
  _future (fst (process init [] 7 None [(empty_result, 7%Z)]))
  = _future (fst (process stale [] 7 None [(empty_result, 7%Z)])).
Proof.
  intros stale.
  exact (@process_ignores_old_slot init stale [] 7%Z None [(empty_result, 7%Z)] eq_refl).
Defined.

Lemma In_skipn {A} (a : A) n l : In a (skipn n l) -> In a l.
Proof.
  intros H. rewrite <- (firstn_skipn n l). apply in_or_app. now right.
Qed.

Lemma step_recorded self c ts :
  recorded (snd (step self c)) = Some ts ->
  detect c = None /\ exists result rest, during c = (result, ts) :: rest.
Proof.
  unfold step, process. cbn [snd recorded].
  destruct (detect c) as [e|]; cbn [fst snd]; [discriminate|].
  destruct (during c) as [|[result t0] rest].
  - cbn. discriminate.
  - rewrite (@deliver_pending (create_future (deliver self (late c))) (result, t0) rest)
      by reflexivity.
    cbn [fst snd _future with_hist Py.ret].
    rewrite (@deliver_pending (create_future (deliver self (late c))) (result, t0) rest)
      by reflexivity.
    intros [= <-]. split; [reflexivity|]. now exists result, rest.
Qed.

Lemma completions_provenance cs : forall self ts,
  In ts (completions (snd (run self cs))) ->
  exists c result rest,
    In c cs /\ detect c = None /\ during c = (result, ts) :: rest.
Proof.
  induction cs as [|c cs IH]; intros self ts H.
  - destruct H.
  - rewrite run_cons in H. cbn [snd] in H. rewrite completions_cons in H.
    apply in_app_or in H. destruct H as [H|H].
    + destruct (recorded (snd (step self c))) as [t0|] eqn:E; [|destruct H].
      destruct H as [<-|[]].
      destruct (step_recorded self c E) as (Hd & result & rest & Hc).
      exists c, result, rest. split; [now left|]. split; assumption.
    + destruct (IH _ _ H) as (c' & result & rest & Hin & Hd & Hc).
      exists c', result, rest. split; [now right|]. split; assumption.
Qed.

(** X10: every timestamp in the history was reported by the engine: it is
    the timestamp of the first callback delivered during the wait of some
    call of the run that the engine took.  Callbacks that arrive between
    calls never enter the history. *)
Theorem history_entries_come_from_callbacks (cs : list call) (ts : Z) :
  In ts (_fps_hist (fst (run init cs))) ->
  exists c result rest,
    In c cs /\ detect c = None /\ during c = (result, ts) :: rest.
Proof.
  intros H.
  rewrite (run_hist cs init [] eq_refl) in H. cbn [app] in H.
  apply In_skipn in H. exact (completions_provenance cs init ts H).
Qed.

Lemma history_entries_come_from_callbacks_witness :
  exists c result rest,
    In c [completed_call 7] /\ detect c = None /\ during c = (result, 7%Z) :: rest.
Proof.
  apply (@history_entries_come_from_callbacks [completed_call 7] 7%Z).
  now left.
Defined.

End FaceTrackerProperties.

(** ** More about the framing *)

Module WireProperties.
Import Wire.
Local Open Scope N_scope.

Lemma from_bytes_little_bound (b : list byte) :
  from_bytes_little b < 256 ^ N.of_nat (List.length b).
Proof.
  induction b as [|b0 rest IH]; cbn [from_bytes_little List.length]; [reflexivity|].
  rewrite Nat2N.inj_succ, N.pow_succ_r'.
  pose proof (Byte.to_N_bounded b0). lia.
Qed.

Lemma slice_length {A} (raw : list A) (lo hi : N) :
  N.of_nat (List.length (slice raw lo hi)) <= hi - lo.
Proof.
  unfold slice. rewrite length_firstn, length_skipn. lia.
Qed.

Lemma prefix_length {A} (raw : list A) : (List.length (slice raw 0 4) <= 4)%nat.
Proof. pose proof (slice_length raw 0 4). lia. Qed.

(** X11: the declared length is below 2^32, the header has at most that
    many bytes, and the header and the image are exactly the bytes after
    the prefix: none is dropped and none is in both, whatever the
    declared length. *)
Theorem frame_partition (raw : list byte) :
  let header_len := from_bytes_little (slice raw 0 4) in
  header_len < 2 ^ 32 /\
  N.of_nat (List.length (slice raw 4 (4 + header_len))) <= header_len /\
  (slice raw 4 (4 + header_len) ++ slice_from raw (4 + header_len))%list = skipn 4 raw.
Proof.
  intros header_len. split; [|split].
  - pose proof (from_bytes_little_bound (slice raw 0 4)) as H.
    pose proof (prefix_length raw) as Hl. fold header_len in H.
    apply (N.lt_le_trans _ _ _ H).
    change (2 ^ 32) with (256 ^ 4). apply N.pow_le_mono_r; lia.
  - pose proof (slice_length raw 4 (4 + header_len)). lia.
  - unfold slice, slice_from. set (n := N.of_nat (List.length raw)).
    destruct (N.le_ge_cases n 4) as [Hn|Hn].
    + rewrite (N.min_r 4 n) by exact Hn. rewrite (N.min_r (4 + header_len) n) by lia.
      rewrite N.sub_diag. cbn [N.to_nat firstn app].
      rewrite skipn_all2 by (unfold n; lia).
      symmetry. apply skipn_all2. unfold n in Hn. lia.
    + rewrite (N.min_l 4 n) by exact Hn.
      set (hi := N.min (4 + header_len) n).
      assert (Hhi : 4 <= hi) by (unfold hi; lia).
      replace (N.to_nat hi) with (N.to_nat (hi - 4) + N.to_nat 4)%nat by lia.
      rewrite <- skipn_skipn. apply firstn_skipn.
Qed.

(** The byte with the value [n], for [n] below 256. *)
Definition byte_of_N (n : N) : byte :=
  match Byte.of_N n with
  | Some b => b
  | None => x00
  end.

(** [n.to_bytes(4, "little")]: the prefix a client writes. *)
Definition le32 (n : N) : list byte :=
  [ byte_of_N (n mod 256);
    byte_of_N ((n / 256) mod 256);
    byte_of_N ((n / 65536) mod 256);
    byte_of_N ((n / 16777216) mod 256) ].

(** The message of a client: the prefix, the header bytes, the image bytes. *)
Definition frame (header image : list byte) : list byte :=
  (le32 (N.of_nat (List.length header)) ++ header ++ image)%list.

Lemma to_N_byte_of_N (n : N) : n < 256 -> Byte.to_N (byte_of_N n) = n.
Proof.
  intros Hn. unfold byte_of_N.
  destruct (Byte.of_N n) as [b|] eqn:E.
  - now apply Byte.to_of_N.
  - apply Byte.of_N_None_iff in E. lia.
Qed.

Lemma from_bytes_little_le32 (n : N) : n < 2 ^ 32 -> from_bytes_little (le32 n) = n.
Proof.
  intros Hn. change (2 ^ 32) with 4294967296 in Hn.
  unfold le32. cbn [from_bytes_little].
  rewrite !to_N_byte_of_N by (apply N.mod_lt; discriminate).
  assert (H3 : n / 16777216 < 256) by (apply N.Div0.div_lt_upper_bound; lia).
  rewrite (N.mod_small (n / 16777216)) by exact H3.
  pose proof (N.Div0.div_mod n 256) as E0.
  pose proof (N.Div0.div_mod (n / 256) 256) as E1.
  pose proof (N.Div0.div_mod (n / 65536) 256) as E2.
  replace (n / 256 / 256) with (n / 65536) in E1
    by (rewrite N.Div0.div_div; reflexivity).
  replace (n / 65536 / 256) with (n / 16777216) in E2
    by (rewrite N.Div0.div_div; reflexivity).
  lia.
Qed.

(** X12: what a client frames, the server takes apart: for a header of
    fewer than 2^32 bytes, the declared length is the header's length and
    the two slices are the header and the image. *)
Theorem frame_round_trip (header image : list byte) :
  N.of_nat (List.length header) < 2 ^ 32 ->
  let raw := frame header image in
  let header_len := from_bytes_little (slice raw 0 4) in
  header_len = N.of_nat (List.length header) /\
  slice raw 4 (4 + header_len) = header /\
  slice_from raw (4 + header_len) = image.
Proof.
  intros Hlen raw header_len.
  assert (Hraw : N.of_nat (List.length raw)
                 = 4 + N.of_nat (List.length header) + N.of_nat (List.length image)).
  { unfold raw, frame. rewrite !length_app. cbn [le32 List.length]. lia. }
  assert (Hprefix : slice raw 0 4 = le32 (N.of_nat (List.length header))).
  { unfold slice. rewrite Hraw. rewrite N.min_0_l, (N.min_l 4) by lia.
    cbn [N.to_nat N.sub skipn]. change (Pos.to_nat 4) with 4%nat.
    unfold raw, frame. reflexivity. }
  assert (Hh : header_len = N.of_nat (List.length header)).
  { unfold header_len. rewrite Hprefix. now apply from_bytes_little_le32. }
  split; [exact Hh|]. rewrite Hh. split.
  - unfold slice. rewrite Hraw. rewrite (N.min_l 4), (N.min_l (4 + _)) by lia.
    replace (4 + N.of_nat (List.length header) - 4) with (N.of_nat (List.length header))
      by lia.
    rewrite Nat2N.id. change (N.to_nat 4) with 4%nat.
    unfold raw, frame. cbn [le32 app skipn].
    rewrite firstn_app, Nat.sub_diag, firstn_all. cbn [firstn]. apply app_nil_r.
  - unfold slice_from. rewrite Hraw. rewrite N.min_l by lia.
    replace (N.to_nat (4 + N.of_nat (List.length header)))
      with (4 + List.length header)%nat by lia.
    unfold raw, frame. cbn [le32 app skipn Nat.add].
    rewrite skipn_app, Nat.sub_diag, skipn_all. reflexivity.
Qed.

Lemma frame_round_trip_witness :
  let raw := frame [x7b; x7d] [xff; xd8] in
  let header_len := from_bytes_little (slice raw 0 4) in
  header_len = 2 /\
  slice raw 4 (4 + header_len) = [x7b; x7d] /\
  slice_from raw (4 + header_len) = [xff; xd8].
Proof.
  apply (@frame_round_trip [x7b; x7d] [xff; xd8]). reflexivity.
Defined.

End WireProperties.

(** ** Startup and the connections of a server *)

Module Server.
Import Ext Loop.
Local Open Scope string_scope.

Definition MODEL_URL : string :=
  "https://storage.googleapis.com/mediapipe-models/face_landmarker/face_landmarker/float16/1/face_landmarker.task".


(** The files that exist, and what was fetched in full: each url with its
    target. *)
Record disk : Type := mkDisk {
  files : list string;
  fetched : list (string * string)
}.

(** [os.path.exists(path)] *)
Definition exists_ (d : disk) (path : string) : bool :=
  existsb (String.eqb path) (files d).

(** What a call of [urllib.request.urlretrieve(url, path)] does: it fetches
    the file, or it raises; it opens the url first and creates the file
    before it reads the body, so a download that fails may leave the file
    behind, incomplete. *)
Inductive download : Type :=
| Complete
| Fails (e : Py.exn) (file_created : bool).

(** The disk after a download that failed. *)
Definition after_failure (model_path : string) (file_created : bool) (d : disk) : disk :=
  if file_created then {| files := model_path :: files d; fetched := fetched d |}
  else d.

(** [ensure_model()]; [urlretrieve] is what the download does, if there is
    one. *)
Definition ensure_model (model_path : string) (urlretrieve : download) (d : disk)
  : disk * Py.M unit :=
  if exists_ d model_path then (d, Py.ret tt)
  else
    match urlretrieve with
    | Fails e file_created => (after_failure model_path file_created d, Py.raise e)
    | Complete =>
        ({| files := model_path :: files d;
            fetched := fetched d ++ [(MODEL_URL, model_path)] |},
         Py.ret tt)
    end.

(** [health()] *)
Definition health : list (string * string) := [("status", "ok")].

(** The startup half of [lifespan]: [ensure_model()], then the global
    tracker; [create] is the exception of [FaceTracker()], if it raises. *)
Definition lifespan (model_path : string) (urlretrieve : download)
    (create : option Py.exn) (d : disk)
  : disk * Py.M FaceTracker.t :=
  let r := ensure_model model_path urlretrieve d in
  (fst r,
   (_ <- snd r ;;
    match create with
    | Some e => Py.raise e
    | None => Py.ret FaceTracker.init
    end)%py).

(** The connections of a server, one after the other, on the global
    tracker: what each one sent and the exception that ended it. *)
Fixpoint serve (E : externals) (face_tracker : option FaceTracker.t)
    (connections : list (list (turn * Py.M message)))
  : option FaceTracker.t * list (list text * option Py.exn) :=
  match connections with
  | [] => (face_tracker, [])
  | inbox :: rest =>
      let '(final, sent, exc) := ws_track E face_tracker inbox in
      let r := serve E (Some final) rest in
      (fst r, (sent, exc) :: snd r)
  end.

End Server.

(** ** More about the loop *)

Module LoopProperties.
Import Detection Ext Assembler Loop LoopFacts.
Import PrimFloat.
Local Open Scope string_scope.

(** A message of type websocket.disconnect. *)
Definition disconnect (b : bytes_field) : Py.M message :=
  Py.ret {| type := "websocket.disconnect"; bytes := b |}.

Lemma send_text_length fault t sent :
  send_text fault t = Py.ret sent -> List.length sent = 1%nat.
Proof. unfold send_text. destruct fault; [discriminate|]. now intros [= <-]. Qed.

Lemma handle_length w e : (List.length (fst (handle w e)) <= 1)%nat.
Proof.
  unfold handle, send_text.
  destruct (Py.exn_class e); cbn; try lia;
    destruct (error_send_fault w) as [e2|]; cbn; try lia;
    destruct (Py.is_Exception (Py.exn_class e2)); cbn; lia.
Qed.

Lemma body_length E w t m sent c :
  snd (body E w t m) = Py.ret (sent, c) -> (List.length sent <= 1)%nat.
Proof.
  unfold body. destruct m as [e|message]; [discriminate|].
  destruct (String.eqb (type message) "websocket.disconnect");
    [intros [= <- _]; cbn; lia|].
  destruct (bytes message) as [| |raw]; [intros [= <- _]; cbn; lia|discriminate|].
  destruct (demultiplex E w raw) as [e|[[header [frame_rgb|]] ts_ms]]; cbn [snd];
    [discriminate| |].
  - destruct (snd (FaceTracker.process _ _ _ _ _)) as [e|result]; cbn [Py.bind];
      [discriminate|].
    destruct (build_payload _ _ _ _ _ _) as [e|payload]; cbn [Py.bind]; [discriminate|].
    destruct (send_text _ _) as [e|sent'] eqn:Es; cbn [Py.bind Py.ret]; [discriminate|].
    intros [= <- _]. rewrite (send_text_length _ _ Es). lia.
  - destruct (send_text _ _) as [e|sent'] eqn:Es; cbn [Py.bind Py.ret]; [discriminate|].
    intros [= <- _]. rewrite (send_text_length _ _ Es). lia.
Qed.

Lemma iteration_length E w t m :
  (List.length (fst (snd (iteration E w t m))) <= 1)%nat.
Proof.
  unfold iteration. cbn [snd].
  destruct (snd (body E w _ m)) as [e|[sent c]] eqn:Eb.
  - apply handle_length.
  - cbn [fst]. exact (body_length E w _ m Eb).
Qed.

Lemma ws_loop_cons E t w m rest :
  ws_loop E t ((w, m) :: rest)
  = match snd (snd (iteration E w t m)) with
    | Continue =>
        (fst (fst (ws_loop E (fst (iteration E w t m)) rest)),
         (fst (snd (iteration E w t m))
          ++ snd (fst (ws_loop E (fst (iteration E w t m)) rest)))%list,
         snd (ws_loop E (fst (iteration E w t m)) rest))
    | Break => (fst (iteration E w t m), fst (snd (iteration E w t m)), None)
    | Uncaught e => (fst (iteration E w t m), fst (snd (iteration E w t m)), Some e)
    end.
Proof.
  cbn [ws_loop]. destruct (snd (snd (iteration E w t m))); try reflexivity.
  now destruct (ws_loop E (fst (iteration E w t m)) rest) as [[final sent] exc].
Qed.

(** X13: a message gets at most one reply: a pass of the loop sends at most
    one text, and a whole connection at most as many texts as it received
    messages. *)
Theorem at_most_one_reply (E : externals) (t : FaceTracker.t)
    (inbox : list (turn * Py.M message)) :
  (forall w m, (List.length (fst (snd (iteration E w t m))) <= 1)%nat) /\
  (List.length (snd (fst (ws_loop E t inbox))) <= List.length inbox)%nat.
Proof.
  split; [intros w m; apply iteration_length|].
  revert t. induction inbox as [|[w m] rest IH]; intros t; [cbn; lia|].
  rewrite ws_loop_cons. pose proof (iteration_length E w t m) as H1.
  destruct (snd (snd (iteration E w t m))); cbn [fst snd List.length].
  - rewrite length_app. specialize (IH (fst (iteration E w t m))). lia.
  - lia.
  - lia.
Qed.

Lemma iteration_disconnect E w t b :
  iteration E w t (disconnect b) = (FaceTracker.deliver t (late w), ([], Break)).
Proof. reflexivity. Qed.

(** X14: the loop ends at a disconnect message: nothing is sent for it,
    and the messages after it are never handled, whatever they are. *)
Theorem disconnect_ends_loop (E : externals) (t : FaceTracker.t)
    (before after : list (turn * Py.M message)) (w : turn) (b : bytes_field) :
  ws_loop E t (before ++ (w, disconnect b) :: after)%list
  = ws_loop E t (before ++ [(w, disconnect b)])%list /\
  iteration E w t (disconnect b) = (FaceTracker.deliver t (late w), ([], Break)).
Proof.
  split; [|apply iteration_disconnect].
  revert t. induction before as [|[w0 m0] before IH]; intros t.
  - cbn [app]. rewrite !ws_loop_cons, iteration_disconnect. reflexivity.
  - cbn [app]. rewrite !ws_loop_cons.
    destruct (snd (snd (iteration E w0 t m0))); try reflexivity.
    now rewrite IH.
Qed.

Lemma body_hist E w t m :
  FaceTracker._fps_hist (fst (body E w t m)) = FaceTracker._fps_hist t \/
  exists ts,
    FaceTracker._fps_hist (fst (body E w t m))
    = FaceTracker.record_completion (FaceTracker._fps_hist t) ts.
Proof.
  unfold body. destruct m as [e|message]; [now left|].
  destruct (String.eqb (type message) "websocket.disconnect"); [now left|].
  destruct (bytes message) as [| |raw]; [now left|now left|].
  destruct (demultiplex E w raw) as [e|[[header [frame_rgb|]] ts_ms]]; cbn [fst];
    [now left| |now left].
  rewrite FaceTrackerProperties.process_hist.
  destruct (detect w); [now left|].
  destruct (during w) as [|[result done_ts] rest]; [now left|].
  right. now exists done_ts.
Qed.

Lemma iteration_hist E w t m :
  FaceTracker._fps_hist (fst (iteration E w t m)) = FaceTracker._fps_hist t \/
  exists ts,
    FaceTracker._fps_hist (fst (iteration E w t m))
    = FaceTracker.record_completion (FaceTracker._fps_hist t) ts.
Proof.
  unfold iteration. cbn [fst].
  destruct (body_hist E w (FaceTracker.deliver t (late w)) m) as [H|[ts H]];
    rewrite FaceTrackerFacts.deliver_hist in H.
  - now left.
  - right. now exists ts.
Qed.

Lemma iteration_bound E w t m :
  (List.length (FaceTracker._fps_hist t) <= 30)%nat ->
  (List.length (FaceTracker._fps_hist (fst (iteration E w t m))) <= 30)%nat.
Proof.
  intros H. destruct (iteration_hist E w t m) as [E1|[ts E1]]; rewrite E1.
  - exact H.
  - now apply FaceTrackerProperties.record_completion_length.
Qed.

Lemma ws_loop_bound E inbox : forall t,
  (List.length (FaceTracker._fps_hist t) <= 30)%nat ->
  (List.length (FaceTracker._fps_hist (fst (fst (ws_loop E t inbox)))) <= 30)%nat.
Proof.
  induction inbox as [|[w m] rest IH]; intros t H; [exact H|].
  rewrite ws_loop_cons. pose proof (iteration_bound E w t m H) as H1.
  destruct (snd (snd (iteration E w t m))); cbn [fst]; [now apply IH|exact H1|exact H1].
Qed.

Definition bounded (face_tracker : option FaceTracker.t) : Prop :=
  match face_tracker with
  | Some t => (List.length (FaceTracker._fps_hist t) <= 30)%nat
  | None => True
  end.

(** X15: the bound of the history holds for the whole server: a pass of the
    loop leaves the history as it was or adds one completion to it, and
    after any connections, one after the other on the global tracker, with
    any messages and faults, the history has at most 30 entries. *)
Theorem history_bound_on_server (E : externals) (face_tracker : option FaceTracker.t)
    (connections : list (list (turn * Py.M message))) :
  bounded face_tracker ->
  bounded (fst (Server.serve E face_tracker connections)) /\
  (forall w t m,
     FaceTracker._fps_hist (fst (iteration E w t m)) = FaceTracker._fps_hist t \/
     exists ts,
       FaceTracker._fps_hist (fst (iteration E w t m))
       = FaceTracker.record_completion (FaceTracker._fps_hist t) ts).
Proof.
  intros Hb. split; [|intros w t m; apply iteration_hist].
  revert face_tracker Hb.
  induction connections as [|inbox rest IH]; intros face_tracker Hb; [exact Hb|].
  cbn [Server.serve].
  destruct (ws_track E face_tracker inbox) as [[final sent] exc] eqn:Ew.
  cbn [fst]. apply IH. cbn [bounded].
  assert (Hf : final = fst (fst (ws_track E face_tracker inbox))) by now rewrite Ew.
  rewrite Hf. unfold ws_track. apply ws_loop_bound.
  destruct face_tracker as [t|]; [exact Hb|cbn; lia].
Qed.

(** A pass in which one callback, for timestamp 40, arrives during the wait. *)
Definition one_callback : turn :=
  {| now_75 := Doubles.at_0s; now_184 := Doubles.at_0s; now_211 := Doubles.at_0s;
     late := []; detect := None;
     during := [(FaceTrackerFacts.empty_result, 40%Z)];
     send_fault := None; error_send_fault := None |}.

Lemma history_bound_on_server_witness :
  bounded (fst (Server.serve Doubles.lab None
                  [[(one_callback, receive small_frame)];
                   [(one_callback, receive small_frame)]])).
Proof.
  exact (proj1 (@history_bound_on_server Doubles.lab None
                  [[(one_callback, receive small_frame)];
                   [(one_callback, receive small_frame)]] I)).
Defined.

(** The history of the server above: both connections wrote to it. *)
Example shared_history :
  option_map FaceTracker._fps_hist
    (fst (Server.serve Doubles.lab None
            [[(one_callback, receive small_frame)];
             [(one_callback, receive small_frame)]]))
  = Some [40%Z; 40%Z].
Proof. reflexivity. Qed.

Lemma handle_uncaught w e e' :
  snd (handle w e) = Uncaught e' -> Py.is_Exception (Py.exn_class e') = false.
Proof.
  unfold handle, send_text.
  destruct (Py.exn_class e) eqn:Ec; cbn; try discriminate;
    try (destruct (error_send_fault w) as [e2|]; cbn; try discriminate;
         destruct (Py.is_Exception (Py.exn_class e2)) eqn:E2; cbn; try discriminate;
         now intros [= <-]);
    intros [= <-]; now rewrite Ec.
Qed.

Lemma body_control E w t m sent c :
  snd (body E w t m) = Py.ret (sent, c) -> c = Continue \/ c = Break.
Proof.
  unfold body. destruct m as [e|message]; [discriminate|].
  destruct (String.eqb (type message) "websocket.disconnect");
    [intros [= _ <-]; now right|].
  destruct (bytes message) as [| |raw]; [intros [= _ <-]; now left|discriminate|].
  destruct (demultiplex E w raw) as [e|[[header [frame_rgb|]] ts_ms]]; cbn [snd];
    [discriminate| |].
  - destruct (snd (FaceTracker.process _ _ _ _ _)) as [e|result]; cbn [Py.bind];
      [discriminate|].
    destruct (build_payload _ _ _ _ _ _) as [e|payload]; cbn [Py.bind]; [discriminate|].
    destruct (send_text _ _) as [e|sent']; cbn [Py.bind Py.ret]; [discriminate|].
    intros [= _ <-]. now left.
  - destruct (send_text _ _) as [e|sent']; cbn [Py.bind Py.ret]; [discriminate|].
    intros [= _ <-]. now left.
Qed.

Lemma iteration_uncaught E w t m e :
  snd (snd (iteration E w t m)) = Uncaught e -> Py.is_Exception (Py.exn_class e) = false.
Proof.
  unfold iteration. cbn [snd].
  destruct (snd (body E w _ m)) as [e0|[sent c]] eqn:Eb.
  - apply handle_uncaught.
  - cbn [snd]. intros ->. destruct (body_control E w _ m Eb); discriminate.
Qed.

(** X16: no [Exception] leaves the loop: when a connection is ended by an
    exception that no handler took, that exception is not an [Exception]
    (it is one of the others, as a cancellation is). *)
Theorem only_base_exceptions_escape (E : externals) (t : FaceTracker.t)
    (inbox : list (turn * Py.M message)) (e : Py.exn) :
  snd (ws_loop E t inbox) = Some e -> Py.is_Exception (Py.exn_class e) = false.
Proof.
  revert t. induction inbox as [|[w m] rest IH]; intros t; [discriminate|].
  rewrite ws_loop_cons.
  destruct (snd (snd (iteration E w t m))) as [| |e0] eqn:Ec; cbn [snd].
  - apply IH.
  - discriminate.
  - intros [= <-]. exact (iteration_uncaught E w t m Ec).
Qed.

Lemma only_base_exceptions_escape_witness :
  Py.is_Exception (Py.exn_class (Py.Exn Py.CancelledError "")) = false.
Proof.
  exact (@only_base_exceptions_escape Doubles.lab FaceTracker.init
           [(quiet, Py.raise (Py.Exn Py.CancelledError ""))]
           (Py.Exn Py.CancelledError "") eq_refl).
Defined.

(** Whether the header access returns does not depend on the clock. *)
Lemma header_ts_any_clock E header now1 now2 ts1 :
  header_ts E header now1 = Py.ret ts1 ->
  exists ts2, header_ts E header now2 = Py.ret ts2.
Proof.
  unfold header_ts. destruct header; cbn [Json.get Py.bind Py.ret]; try discriminate.
  destruct (Json.lookup "ts" d) as [v|].
  - intros H. now exists ts1.
  - intros _. cbn. eexists. reflexivity.
Qed.

Definition is_dict (v : Json.value) : bool :=
  match v with
  | Json.JDict _ => true
  | _ => false
  end.

(** X17: a header that is JSON but no object is answered with the error
    text of the missing [get], naming its type, once the image bytes have
    gone through the decoder; the tracker is not called and the loop goes
    on. *)
Theorem header_not_a_dict (E : externals) (w : turn) (t : FaceTracker.t)
    (raw : list byte) (header_text : string) (v : Json.value)
    (frame_rgb : option ndarray) :
  Wire.decode_utf8 (header_bytes raw) = Py.ret header_text ->
  json_loads E header_text = Py.ret v ->
  is_dict v = false ->
  decode_jpeg E (Wire.slice_from raw (4 + declared_len raw)) = Py.ret frame_rgb ->
  error_send_fault w = None ->
  iteration E w t (receive raw)
  = (FaceTracker.deliver t (late w),
     ([ErrorText ("'" ++ Json.type_name v ++ "' object has no attribute 'get'")],
      Continue)).
Proof.
  intros Hd Hj Hv Hi Hs.
  assert (Hm : demultiplex E w raw
               = Py.raise (Py.Exn Py.AttributeError
                   ("'" ++ Json.type_name v ++ "' object has no attribute 'get'"))).
  { unfold demultiplex. fold (declared_len raw). fold (header_bytes raw).
    rewrite Hd. cbn [Py.bind Py.ret]. rewrite Hj. cbn [Py.bind Py.ret].
    rewrite Hi. cbn [Py.bind Py.ret].
    unfold header_ts. destruct v; try discriminate Hv; reflexivity. }
  rewrite iteration_receive, Hm. cbn [Py.raise].
  now rewrite handle_reported.
Qed.

(** A stand-in like [Doubles.lab] that also knows the empty list. *)
Definition list_lab : externals :=
  {| json_loads := fun text =>
       if String.eqb text "[]" then Py.ret (Json.JList [])
       else json_loads Doubles.lab text;
     int_of_str := int_of_str Doubles.lab;
     imdecode := imdecode Doubles.lab;
     cvtColor := cvtColor Doubles.lab;
     pil_open_rgb := pil_open_rgb Doubles.lab |}.

(** A buffer with the header "[]" and two bytes of image, FF D8. *)
Definition list_frame : list byte := [x02; x00; x00; x00; x5b; x5d; xff; xd8].

Lemma header_not_a_dict_witness :
  iteration list_lab quiet FaceTracker.init (receive list_frame)
  = (FaceTracker.init,
     ([ErrorText "'list' object has no attribute 'get'"], Continue)).
Proof.
  exact (@header_not_a_dict list_lab quiet FaceTracker.init list_frame "[]"
           (Json.JList []) (Some Doubles.one_pixel)
           eq_refl eq_refl eq_refl eq_refl eq_refl).
Defined.

Lemma pose_of_raises result e :
  pose_of result = Py.raise e ->
  Py.exn_class e = Py.ValueError \/ Py.exn_class e = Py.IndexError.
Proof.
  unfold pose_of.
  destruct (facial_transformation_matrixes result) as [|matrix rest].
  - destruct (face_landmarks result) as [|landmarks others];
      [intros [= <-]; now right|].
    unfold Pose.estimate_pose_from_landmarks, Pose.landmark_at.
    destruct (nth_error landmarks 33); cbn [Py.bind];
      [|intros [= <-]; now right].
    destruct (nth_error landmarks 263); cbn [Py.bind];
      [|intros [= <-]; now right].
    destruct (nth_error landmarks 1); cbn [Py.bind Py.ret];
      [discriminate|intros [= <-]; now right].
  - unfold Pose.extract_pose_from_matrix, Pose.reshape_4x4.
    destruct (List.length matrix =? 16)%nat; cbn [Py.bind Py.ret].
    + destruct (negb _); discriminate.
    + intros [= <-]. now left.
Qed.

(** X18: a result with a face whose pose cannot be computed (a matrix that
    has not 16 entries, or no matrix and fewer than 264 landmarks) is
    answered with the text of the ValueError or IndexError and the loop
    goes on; the completion is in the history all the same. *)
Theorem pose_fault_reported (E : externals) (w : turn) (t : FaceTracker.t)
    (raw : list byte) (header : Json.value) (frame_rgb : ndarray) (ts_ms done_ts : Z)
    (result : FaceLandmarkerResult) (more : list FaceTracker.completion) (e : Py.exn) :
  demultiplex E w raw = Py.ret (header, Some frame_rgb, ts_ms) ->
  detect w = None ->
  during w = (result, done_ts) :: more ->
  face_landmarks result <> [] ->
  pose_of result = Py.raise e ->
  error_send_fault w = None ->
  (Py.exn_class e = Py.ValueError \/ Py.exn_class e = Py.IndexError) /\
  snd (iteration E w t (receive raw)) = ([ErrorText (Py.exn_str e)], Continue) /\
  FaceTracker._fps_hist (fst (iteration E w t (receive raw)))
  = FaceTracker.record_completion (FaceTracker._fps_hist t) done_ts.
Proof.
  intros Hd Hdet Hdur Hface Hpose Hs.
  pose proof (pose_of_raises result Hpose) as Hclass.
  split; [exact Hclass|].
  rewrite iteration_receive, Hd. cbn [Py.ret]. cbv zeta. cbn [fst snd].
  rewrite Hdet, Hdur.
  rewrite FaceTrackerProperties.process_result, FaceTrackerProperties.process_hist,
    FaceTrackerFacts.deliver_hist. cbn [Py.ret].
  split; [|reflexivity].
  destruct (header_ts_any_clock E header (now_75 w) (now_184 w) (demultiplex_ts E w raw Hd))
    as [ts2 Hts2].
  assert (Hb : build_payload E (Some result) header
                 (FaceTracker.fps
                    (fst (FaceTracker.process (FaceTracker.deliver t (late w)) frame_rgb
                            ts_ms None ((result, done_ts) :: more))))
                 (now_184 w) (now_211 w) = Py.raise e).
  { unfold build_payload. rewrite Hts2. cbn [Py.bind Py.ret].
    destruct (face_landmarks result) as [|l ls]; [now contradiction Hface|].
    cbn [List.length Nat.eqb]. rewrite Hpose. reflexivity. }
  rewrite Hb. cbn [Py.raise].
  apply handle_reported; [|exact Hs].
  unfold reported. destruct Hclass as [-> | ->]; reflexivity.
Qed.

(** A face with too few landmarks and a matrix of three entries. *)
Definition short_matrix : FaceLandmarkerResult :=
  {| face_landmarks := [[Landmark 0 0 0]];
     face_blendshapes := [];
     facial_transformation_matrixes := [[Float64.one; Float64.zero; Float64.zero]] |}.

Definition short_matrix_arrives : turn :=
  {| now_75 := Doubles.at_0s; now_184 := Doubles.at_0s; now_211 := Doubles.at_0s;
     late := []; detect := None; during := [(short_matrix, 40%Z)];
     send_fault := None; error_send_fault := None |}.

Lemma pose_fault_reported_witness :
  snd (iteration Doubles.lab short_matrix_arrives FaceTracker.init (receive small_frame))
  = ([ErrorText "cannot reshape array of size 3 into shape (4,4)"], Continue) /\
  FaceTracker._fps_hist
    (fst (iteration Doubles.lab short_matrix_arrives FaceTracker.init
            (receive small_frame)))
  = [40%Z].
Proof.
  exact (proj2 (@pose_fault_reported Doubles.lab short_matrix_arrives FaceTracker.init
                  small_frame (Json.JDict []) Doubles.one_pixel (Json.trunc (now_ms Doubles.at_0s))
                  40%Z short_matrix []
                  (Py.Exn Py.ValueError "cannot reshape array of size 3 into shape (4,4)")
                  eq_refl eq_refl eq_refl ltac:(discriminate) eq_refl eq_refl)).
Defined.

(** X19: what the decoder of images does with the two libraries.  What
    OpenCV decodes is returned with its channels converted and PIL is not
    asked; PIL is asked when OpenCV returns nothing, and its [Exception]s
    become absent.  The decoder raises only what OpenCV raises, or what PIL
    raises that is no [Exception]. *)
Theorem decode_jpeg_outcomes (E : externals) (jpeg_bytes : list byte) :
  (forall img, imdecode E jpeg_bytes = Py.ret (Some img) ->
     decode_jpeg E jpeg_bytes = Py.ret (Some (cvtColor E img))) /\
  (decode_jpeg E jpeg_bytes = Py.ret None ->
     imdecode E jpeg_bytes = Py.ret None /\
     exists e, pil_open_rgb E jpeg_bytes = Py.raise e /\
               Py.is_Exception (Py.exn_class e) = true) /\
  (forall e, decode_jpeg E jpeg_bytes = Py.raise e ->
     imdecode E jpeg_bytes = Py.raise e \/
     (imdecode E jpeg_bytes = Py.ret None /\
      pil_open_rgb E jpeg_bytes = Py.raise e /\
      Py.is_Exception (Py.exn_class e) = false)).
Proof.
  unfold decode_jpeg.
  destruct (imdecode E jpeg_bytes) as [e0|[img0|]]; cbn [Py.bind Py.ret Py.raise].
  - split; [discriminate|]. split; [discriminate|].
    intros e [= <-]. now left.
  - split; [now intros img [= <-]|]. split; discriminate.
  - split; [discriminate|].
    destruct (pil_open_rgb E jpeg_bytes) as [e1|img1].
    + destruct (Py.is_Exception (Py.exn_class e1)) eqn:Ex.
      * split; [|discriminate]. intros _. split; [reflexivity|]. now exists e1.
      * split; [discriminate|]. intros e [= <-]. right. repeat split. exact Ex.
    + split; discriminate.
Qed.

Lemma handle_sends_error w e sent :
  fst (handle w e) = sent -> sent = [] \/ sent = [ErrorText (Py.exn_str e)].
Proof.
  intros <-. unfold handle, send_text.
  destruct (Py.exn_class e); cbn; auto;
    destruct (error_send_fault w) as [e2|]; cbn; auto;
    destruct (Py.is_Exception (Py.exn_class e2)); cbn; auto.
Qed.

Lemma handle_no_payload w e p c : handle w e <> ([PayloadText p], c).
Proof.
  intros H. destruct (handle_sends_error w e (sent := fst (handle w e)) eq_refl) as [E1|E1];
    rewrite H in E1; discriminate.
Qed.

Lemma send_text_payload fault t sent : send_text fault t = Py.ret sent -> sent = [t].
Proof. unfold send_text. destruct fault; [discriminate|]. now intros [= <-]. Qed.

(** X20: the frame rate in a reply.  When the frame decoded, the payload
    that is sent carries the frame rate of the tracker as the pass leaves
    it, the completion of this very frame counted; when the frame did not
    decode, the payload carries 0, whatever the history is. *)
Theorem reply_frame_rate (E : externals) (w : turn) (t t' : FaceTracker.t)
    (raw : list byte) (p : payload) (c : control) :
  iteration E w t (receive raw) = (t', ([PayloadText p], c)) ->
  (forall header frame_rgb ts_ms,
     demultiplex E w raw = Py.ret (header, Some frame_rgb, ts_ms) ->
     serverFps (debug p) = FaceTracker.fps t') /\
  (forall header ts_ms,
     demultiplex E w raw = Py.ret (header, None, ts_ms) ->
     serverFps (debug p) = 0%float).
Proof.
  rewrite iteration_receive. intros H. split.
  - intros header frame_rgb ts_ms Hd. rewrite Hd in H. cbn [Py.ret] in H. cbv zeta in H.
    injection H as Ht Hrest. rewrite <- Ht.
    destruct (snd (FaceTracker.process _ _ _ _ _)) as [e|result];
      [now apply handle_no_payload in Hrest|].
    destruct (build_payload _ _ _ _ _ _) as [e|payload] eqn:Hb;
      [now apply handle_no_payload in Hrest|].
    destruct (send_text _ _) as [e|sent] eqn:Es;
      [now apply handle_no_payload in Hrest|].
    apply send_text_payload in Es. subst sent. injection Hrest as -> _.
    exact (AssemblerProperties.payload_server_fps _ _ _ _ _ _ Hb).
  - intros header ts_ms Hd. rewrite Hd in H. cbn [Py.ret] in H.
    injection H as _ Hrest.
    destruct (send_text _ _) as [e|sent] eqn:Es;
      [now apply handle_no_payload in Hrest|].
    apply send_text_payload in Es. subst sent. injection Hrest as <- _.
    reflexivity.
Qed.

Lemma reply_frame_rate_witness :
  exists p,
    snd (iteration Doubles.lab one_callback FaceTracker.init (receive small_frame))
    = ([PayloadText p], Continue) /\
    serverFps (debug p)
    = FaceTracker.fps
        (fst (iteration Doubles.lab one_callback FaceTracker.init (receive small_frame))).
Proof.
  eexists. split; [reflexivity|].
  refine (proj1 (@reply_frame_rate Doubles.lab one_callback FaceTracker.init _
                   small_frame _ Continue eq_refl)
                (Json.JDict []) Doubles.one_pixel (Json.trunc (now_ms Doubles.at_0s)) eq_refl).
Defined.

End LoopProperties.

(** ** More about the startup *)

Module ServerProperties.
Import Server.
Local Open Scope string_scope.





End ServerProperties.
